(** * nicegui-stellarium: the command/query bridge and the widget lifecycle

    A shallow embedding of [stellarium_bridge.py], [stellarium_widget.py]
    and [scripts.py].
    Python code that mutates objects and calls into the UI framework becomes
    a state-and-exception monad over a [World]; the script fragments that
    the bridge writes as f-strings are kept as syntax trees together with
    an evaluator for the browser side. *)

From Stdlib Require Import QArith Lqa.
From stdpp Require Import base option list strings gmap.

Local Open Scope string_scope.

(** ** Python numbers

    A Python [float] is a finite value, an infinity or NaN.  The finite
    doubles are embedded in [Q]; the code only compares them (and subtracts
    360 on the browser side), which is exact on that embedding. *)

Inductive PyNum : Type :=
| Fin (q : Q)
| PosInf
| NegInf
| NaN.

Definition Qltb (x y : Q) : bool := negb (Qle_bool y x).

(** [a < b] as Python evaluates it: false whenever NaN is involved. *)
Definition py_lt (a b : PyNum) : bool :=
  match a, b with
  | NaN, _ | _, NaN => false
  | Fin x, Fin y => Qltb x y
  | NegInf, NegInf => false
  | NegInf, _ => true
  | _, NegInf => false
  | PosInf, _ => false
  | Fin _, PosInf => true
  end.

(** [a <= b] as Python evaluates it. *)
Definition py_le (a b : PyNum) : bool :=
  match a, b with
  | NaN, _ | _, NaN => false
  | Fin x, Fin y => Qle_bool x y
  | NegInf, _ => true
  | _, NegInf => false
  | _, PosInf => true
  | PosInf, Fin _ => false
  end.

(** The builtins [min(a, b)] and [max(a, b)]: the first argument is kept
    unless the second one compares strictly smaller (resp. greater). *)
Definition py_min (a b : PyNum) : PyNum := if py_lt b a then b else a.
Definition py_max (a b : PyNum) : PyNum := if py_lt a b then b else a.

(** ** Exceptions and outcomes *)

Inductive PyExn : Type :=
| TimeoutError
| RuntimeError (msg : string)
| FileNotFoundError (msg : string)
| JsError (msg : string).

Inductive Outcome (A : Type) : Type :=
| Return (a : A)
| Raise (e : PyExn).
Arguments Return {A} a.
Arguments Raise {A} e.

(** Values that [await ui.run_javascript(...)] hands back to Python. *)
Inductive PyVal : Type :=
| PyNone
| PyBool (b : bool)
| PyFloat (q : Q)
| PyStr (s : string)
| PyDict.

(** [v is True] *)
Definition is_True (v : PyVal) : bool :=
  match v with PyBool true => true | _ => false end.

(** ** The browser side *)

Inductive Layer : Type :=
| ConstellationLines
| ConstellationLabels
| Atmosphere
| Landscape
| AzimuthalGrid
| EquatorialGrid
| Milkyway.

(** A catalogue object; [obj_pvo] is what [obj.getInfo('pvo', observer)]
    yields (a falsy answer is [None]). *)
Record SkyObject : Type := {
  obj_id : string;
  obj_pvo : option (Q * Q * Q);
}.

(** The engine behind [window.<id>_stel].  Angles are kept in degrees, that
    is, divided by [stel.D2R].  [horizontal_deg] stands for the engine's own
    pipeline [anp(c2s(convertFrame(observer, 'ICRF', 'OBSERVED', p))[k]) / D2R]
    and gives the pair for [k = 0] (azimuth) and [k = 1] (altitude);
    [date2MJD] is the engine's conversion of Unix milliseconds. *)
Record Engine : Type := {
  getObj : string → option SkyObject;
  horizontal_deg : Q → Q → Q * Q * Q → Q * Q;
  date2MJD : Q → Q;
  observer_latitude : Q;
  observer_longitude : Q;
  observer_utc : Q;
  core_fov : Q;
  core_selection : option SkyObject;
  locked_on : option SkyObject;
  layer_visible : Layer → bool;
}.

Inductive JsVal : Type :=
| JUndefined
| JNull
| JBool (b : bool)
| JNum (q : Q)
| JStr (s : string)
| JObj (e : Engine).

(** JavaScript truthiness, as used by [if (!stel)]. *)
Definition js_truthy (v : JsVal) : bool :=
  match v with
  | JUndefined | JNull => false
  | JBool b => b
  | JNum q => negb (Qeq_bool q 0)
  | JStr s => negb (String.eqb s EmptyString)
  | JObj _ => true
  end.

(** [a === true] *)
Definition js_strict_true (v : JsVal) : bool :=
  match v with JBool true => true | _ => false end.

(** JSON transport of a result back to Python. *)
Definition to_py (v : JsVal) : PyVal :=
  match v with
  | JUndefined | JNull => PyNone
  | JBool b => PyBool b
  | JNum q => PyFloat q
  | JStr s => PyStr s
  | JObj _ => PyDict
  end.

(** ** Script fragments

    The bodies that the bridge interpolates into its wrappers, one
    constructor per statement group of the Python f-strings.  A Python
    number appears in the script as its textual form; a caller-supplied
    name appears as the literal made by [json.dumps], which denotes the
    name itself. *)

Inductive JsStmt : Type :=
| AssignLatitude (latitude : PyNum)
| AssignLongitude (longitude : PyNum)
| AssignUtc (timestamp_ms : PyNum)
| SelectAndLock (name : string)
| AssignFov (fov : PyNum)
| AssignVisible (l : Layer) (visible : bool)
| ReturnAltitude (name : string)
| ReturnAzimuth (name : string).

Record InitArgs : Type := {
  arg_widgetId : string;
  arg_canvasId : string;
  arg_latitude : PyNum;
  arg_longitude : PyNum;
  arg_jsUrl : string;
  arg_wasmUrl : string;
  arg_dataUrl : string;
}.

Inductive Fragment : Type :=
| RunWrapper (stel_ref : string) (js : list JsStmt)
| QueryWrapper (stel_ref : string) (js : list JsStmt)
| ReadyTest (ready_ref : string)
| InitCall (args : InitArgs).

(** The text of a Python float is a JavaScript numeric literal only when
    the float is finite ([inf] and [nan] are unbound identifiers there). *)
Definition js_number (x : PyNum) : option Q :=
  match x with Fin q => Some q | _ => None end.

(** [if (alt > 180) alt -= 360;] *)
Definition normalize_altitude (alt : Q) : Q :=
  if Qltb 180 alt then (alt - 360)%Q else alt.

Definition set_observer_latitude (q : Q) (e : Engine) : Engine :=
  {| getObj := getObj e; horizontal_deg := horizontal_deg e;
     date2MJD := date2MJD e;
     observer_latitude := q; observer_longitude := observer_longitude e;
     observer_utc := observer_utc e; core_fov := core_fov e;
     core_selection := core_selection e; locked_on := locked_on e;
     layer_visible := layer_visible e |}.

Definition set_observer_longitude (q : Q) (e : Engine) : Engine :=
  {| getObj := getObj e; horizontal_deg := horizontal_deg e;
     date2MJD := date2MJD e;
     observer_latitude := observer_latitude e; observer_longitude := q;
     observer_utc := observer_utc e; core_fov := core_fov e;
     core_selection := core_selection e; locked_on := locked_on e;
     layer_visible := layer_visible e |}.

Definition set_observer_utc (q : Q) (e : Engine) : Engine :=
  {| getObj := getObj e; horizontal_deg := horizontal_deg e;
     date2MJD := date2MJD e;
     observer_latitude := observer_latitude e;
     observer_longitude := observer_longitude e;
     observer_utc := q; core_fov := core_fov e;
     core_selection := core_selection e; locked_on := locked_on e;
     layer_visible := layer_visible e |}.

Definition set_core_fov (q : Q) (e : Engine) : Engine :=
  {| getObj := getObj e; horizontal_deg := horizontal_deg e;
     date2MJD := date2MJD e;
     observer_latitude := observer_latitude e;
     observer_longitude := observer_longitude e;
     observer_utc := observer_utc e; core_fov := q;
     core_selection := core_selection e; locked_on := locked_on e;
     layer_visible := layer_visible e |}.

Definition select_and_lock (o : SkyObject) (e : Engine) : Engine :=
  {| getObj := getObj e; horizontal_deg := horizontal_deg e;
     date2MJD := date2MJD e;
     observer_latitude := observer_latitude e;
     observer_longitude := observer_longitude e;
     observer_utc := observer_utc e; core_fov := core_fov e;
     core_selection := Some o; locked_on := Some o;
     layer_visible := layer_visible e |}.

Definition layer_eqb (a b : Layer) : bool :=
  match a, b with
  | ConstellationLines, ConstellationLines
  | ConstellationLabels, ConstellationLabels
  | Atmosphere, Atmosphere
  | Landscape, Landscape
  | AzimuthalGrid, AzimuthalGrid
  | EquatorialGrid, EquatorialGrid
  | Milkyway, Milkyway => true
  | _, _ => false
  end.

Definition set_layer_visible (l : Layer) (b : bool) (e : Engine) : Engine :=
  {| getObj := getObj e; horizontal_deg := horizontal_deg e;
     date2MJD := date2MJD e;
     observer_latitude := observer_latitude e;
     observer_longitude := observer_longitude e;
     observer_utc := observer_utc e; core_fov := core_fov e;
     core_selection := core_selection e; locked_on := locked_on e;
     layer_visible := λ l', if layer_eqb l l' then b else layer_visible e l' |}.

(** What one statement group does to the engine. *)
Inductive StmtResult : Type :=
| Next (e : Engine)
| Returned (v : JsVal) (e : Engine)
| Thrown (e : Engine).

Definition exec_stmt (s : JsStmt) (e : Engine) : StmtResult :=
  match s with
  | AssignLatitude x =>
      match js_number x with
      | Some q => Next (set_observer_latitude q e)
      | None => Thrown e
      end
  | AssignLongitude x =>
      match js_number x with
      | Some q => Next (set_observer_longitude q e)
      | None => Thrown e
      end
  | AssignUtc x =>
      match js_number x with
      | Some q => Next (set_observer_utc (date2MJD e q) e)
      | None => Thrown e
      end
  | SelectAndLock name =>
      match getObj e name with
      | Some o => Next (select_and_lock o e)
      | None => Next e
      end
  | AssignFov x =>
      match js_number x with
      | Some q => Next (set_core_fov q e)
      | None => Thrown e
      end
  | AssignVisible l b => Next (set_layer_visible l b e)
  | ReturnAltitude name =>
      match getObj e name with
      | None => Returned JNull e
      | Some o =>
          match obj_pvo o with
          | None => Returned JNull e
          | Some p =>
              let azalt :=
                horizontal_deg e (observer_latitude e) (observer_longitude e) p in
              Returned (JNum (normalize_altitude (snd azalt))) e
          end
      end
  | ReturnAzimuth name =>
      match getObj e name with
      | None => Returned JNull e
      | Some o =>
          match obj_pvo o with
          | None => Returned JNull e
          | Some p =>
              let azalt :=
                horizontal_deg e (observer_latitude e) (observer_longitude e) p in
              Returned (JNum (fst azalt)) e
          end
      end
  end.

(** A body runs its statements in order; falling off the end yields
    [undefined]. *)
Fixpoint exec_body (js : list JsStmt) (e : Engine) : StmtResult :=
  match js with
  | [] => Returned JUndefined e
  | s :: rest =>
      match exec_stmt s e with
      | Next e' => exec_body rest e'
      | r => r
      end
  end.

Inductive JsResult : Type :=
| JsValue (v : JsVal)
| JsThrow.

(** The value of the global [name]; an unset global reads as [undefined]. *)
Definition window_get (window : gmap string JsVal) (name : string) : JsVal :=
  default JUndefined (window !! name).

(** The guarded wrapper shared by [_run] and [_query]:
    [var stel = window.<ref>; if (!stel) return <absent>; <js>]. *)
Definition eval_wrapper (absent : JsVal) (stel_ref : string) (js : list JsStmt)
    (window : gmap string JsVal) : JsResult * gmap string JsVal :=
  let stel := window_get window stel_ref in
  if negb (js_truthy stel) then (JsValue absent, window)
  else match stel with
       | JObj e =>
           match exec_body js e with
           | Next e' => (JsValue JUndefined, <[stel_ref := JObj e']> window)
           | Returned v e' => (JsValue v, <[stel_ref := JObj e']> window)
           | Thrown e' => (JsThrow, <[stel_ref := JObj e']> window)
           end
       | _ =>
           match js with
           | [] => (JsValue JUndefined, window)
           | _ => (JsThrow, window)
           end
       end.

(** [initStellariumWidget] only starts the engine; the handle and the
    readiness flag appear in the page later, on their own. *)
Definition eval_fragment (f : Fragment) (window : gmap string JsVal)
    : JsResult * gmap string JsVal :=
  match f with
  | RunWrapper ref js => eval_wrapper JUndefined ref js window
  | QueryWrapper ref js => eval_wrapper JNull ref js window
  | ReadyTest ref => (JsValue (JBool (js_strict_true (window_get window ref))), window)
  | InitCall _ => (JsValue JUndefined, window)
  end.

(** ** Paths

    A [pathlib.Path] is the list of its components below the root;
    [p / name] appends one. *)

Definition Path : Type := list string.

Definition path_join (p : Path) (name : string) : Path := (p ++ [name])%list.
Infix "//" := path_join (at level 40, left associativity).

(** [str(p)] *)
Definition path_str (p : Path) : string :=
  "/" +:+ String.concat "/" p.

(** [str(p)] where [p] may be [None]. *)
Definition opt_path_str (p : option Path) : string :=
  match p with Some d => path_str d | None => "None" end.

(** [p.parents]: the proper ancestors, nearest first, down to the root. *)
Fixpoint parents (p : Path) : list Path :=
  match p with
  | [] => []
  | c :: rest => (((c ::.) <$> parents rest) ++ [[]])%list
  end.

(** [p.parent]; the root is its own parent. *)
Definition path_parent (p : Path) : Path := removelast p.

(** ** Configuration objects *)

Record StellariumConfig : Type := {
  build_dir : option Path;
  data_dir : option Path;
  url_prefix : string;
  js_url : string;
  wasm_url : string;
  data_url : string;
  init_script_url : string;
  _mounted : bool;
}.

(** The dataclass constructor: the URL fields and [_mounted] are not
    constructor arguments ([init=False]). *)
Definition new_config (build data : option Path) (prefix : string)
    : StellariumConfig :=
  {| build_dir := build; data_dir := data; url_prefix := prefix;
     js_url := EmptyString; wasm_url := EmptyString;
     data_url := EmptyString; init_script_url := EmptyString;
     _mounted := false |}.

(** ** Effects *)

Inductive UiElem : Type :=
| Container
| ControlBar
| Canvas
| StatusLabel
| LatLabel
| LonLabel
| LatInput
| LonInput
| ReadyIndicator
| CheckTimer.

Inductive LabelText : Type :=
| Literal (s : string)
| LatText (x : PyNum)
| LonText (x : PyNum).

Inductive StateField : Type :=
| FLatitude
| FLongitude
| FAltitude
| FFov
| FIsReady.

(** Every call into the framework, the logger or the console, and every
    assignment to the widget's state, in program order. *)
Inductive Event : Type :=
| EvRunJavascript (f : Fragment)
| EvAddStaticFiles (url dir : string)
| EvAddHeadScript (src : string)
| EvPrint (line : string)
| EvWarning (msg : string)
| EvStore (field : StateField)
| EvCreate (el : UiElem)
| EvSetValue (el : UiElem) (v : PyNum)
| EvSetText (el : UiElem) (t : LabelText)
| EvClasses (el : UiElem) (add remove : string)
| EvCancel (el : UiElem).

(** What the scripting host does with an awaited evaluation. *)
Inductive HostMode : Type :=
| Responds
| Fails (e : PyExn).

(** The surroundings the code reads but does not change. *)
Record Env : Type := {
  fs_exists : Path → bool;
  static_accepts : string → bool;
  module_file : Path;
}.

Record World : Type := {
  env : Env;
  host : HostMode;
  window : gmap string JsVal;
  configs : list StellariumConfig;
  _active : option nat;
  events : list Event;
}.

Definition with_window (win : gmap string JsVal) (w : World) : World :=
  {| env := env w; host := host w; window := win; configs := configs w;
     _active := _active w; events := events w |}.

Definition with_configs (cs : list StellariumConfig) (w : World) : World :=
  {| env := env w; host := host w; window := window w; configs := cs;
     _active := _active w; events := events w |}.

Definition with_active (a : option nat) (w : World) : World :=
  {| env := env w; host := host w; window := window w; configs := configs w;
     _active := a; events := events w |}.

Definition with_events (evs : list Event) (w : World) : World :=
  {| env := env w; host := host w; window := window w; configs := configs w;
     _active := _active w; events := evs |}.

(** ** The monad: state that survives an exception *)

Definition M (A : Type) : Type := World → Outcome A * World.

#[global] Instance M_ret : MRet M := λ A a w, (Return a, w).

#[global] Instance M_bind : MBind M := λ A B f m w,
  match m w with
  | (Return a, w') => f a w'
  | (Raise e, w') => (Raise e, w')
  end.

#[global] Instance M_throw : MThrow PyExn M := λ A e w, (Raise e, w).

(** [try: m except Exception as e: h e] *)
Definition try_except {A} (m : M A) (h : PyExn → M A) : M A := λ w,
  match m w with
  | (Return a, w') => (Return a, w')
  | (Raise e, w') => h e w'
  end.

Definition emit (ev : Event) : M unit := λ w,
  (Return (), with_events (events w ++ [ev])%list w).

Definition get_world : M World := λ w, (Return w, w).

(** [ui.run_javascript(code)] without [await]: the fragment is handed to
    the host, which evaluates it in the page. *)
Definition run_javascript (f : Fragment) : M unit := λ w,
  let w1 := with_events (events w ++ [EvRunJavascript f])%list w in
  match host w with
  | Responds => (Return (), with_window (eval_fragment f (window w)).2 w1)
  | Fails _ => (Return (), w1)
  end.

(** [await ui.run_javascript(code)]: the coroutine resumes with the
    transported result, or with the host's failure; a fragment that throws
    in the page never answers, which the host reports as a timeout. *)
Definition await_javascript (f : Fragment) : M PyVal := λ w,
  let w1 := with_events (events w ++ [EvRunJavascript f])%list w in
  match host w with
  | Fails e => (Raise e, w1)
  | Responds =>
      match eval_fragment f (window w) with
      | (JsValue v, win) => (Return (to_py v), with_window win w1)
      | (JsThrow, win) => (Raise TimeoutError, with_window win w1)
      end
  end.

(** [str(e)]; the host's timeout message is abbreviated. *)
Definition exn_str (e : PyExn) : string :=
  match e with
  | TimeoutError => "JavaScript did not respond"
  | RuntimeError msg | FileNotFoundError msg | JsError msg => msg
  end.

(** ** [StellariumBridge] *)

Module StellariumBridge.

Record t : Type := {
  widget_id : string;
  _stel_ref : string;
}.

Definition __init__ (widget_id : string) : t :=
  {| widget_id := widget_id;
     _stel_ref := "window." +:+ widget_id +:+ "_stel" |}.

(** Execute JavaScript if the engine is ready: the guard is part of the
    fragment, the fragment itself is always handed to the host. *)
Definition _run (self : t) (js : list JsStmt) : M unit :=
  run_javascript (RunWrapper (_stel_ref self) js).

Definition _query (self : t) (js : list JsStmt) : M PyVal :=
  try_except
    (await_javascript (QueryWrapper (_stel_ref self) js))
    (λ e,
      emit (EvWarning ("[" +:+ widget_id self +:+ "] JS query failed: " +:+ exn_str e));;
      mret PyNone).

Definition is_ready (self : t) : M PyVal :=
  result ← await_javascript (ReadyTest ("window." +:+ widget_id self +:+ "_ready"));
  mret (PyBool (is_True result)).

Definition set_location (self : t) (latitude longitude : PyNum) : M unit :=
  _run self [AssignLatitude latitude; AssignLongitude longitude].

Definition set_datetime (self : t) (timestamp_ms : PyNum) : M unit :=
  _run self [AssignUtc timestamp_ms].

Definition look_at_object (self : t) (object_name : string) : M unit :=
  _run self [SelectAndLock object_name].

Definition set_fov (self : t) (fov_degrees : PyNum) : M unit :=
  _run self [AssignFov fov_degrees].

Definition set_constellation_lines (self : t) (visible : bool) : M unit :=
  _run self [AssignVisible ConstellationLines visible].

Definition set_constellation_labels (self : t) (visible : bool) : M unit :=
  _run self [AssignVisible ConstellationLabels visible].

Definition set_atmosphere (self : t) (visible : bool) : M unit :=
  _run self [AssignVisible Atmosphere visible].

Definition set_landscape (self : t) (visible : bool) : M unit :=
  _run self [AssignVisible Landscape visible].

Definition set_azimuthal_grid (self : t) (visible : bool) : M unit :=
  _run self [AssignVisible AzimuthalGrid visible].

Definition set_equatorial_grid (self : t) (visible : bool) : M unit :=
  _run self [AssignVisible EquatorialGrid visible].

Definition set_milkyway (self : t) (visible : bool) : M unit :=
  _run self [AssignVisible Milkyway visible].

Definition get_object_altitude (self : t) (object_name : string) : M PyVal :=
  _query self [ReturnAltitude object_name].

Definition get_object_azimuth (self : t) (object_name : string) : M PyVal :=
  _query self [ReturnAzimuth object_name].

End StellariumBridge.

(** The command and query operations of the bridge, as data. *)
Inductive Command : Type :=
| CmdSetLocation (latitude longitude : PyNum)
| CmdSetDatetime (timestamp_ms : PyNum)
| CmdLookAtObject (object_name : string)
| CmdSetFov (fov_degrees : PyNum)
| CmdSetConstellationLines (visible : bool)
| CmdSetConstellationLabels (visible : bool)
| CmdSetAtmosphere (visible : bool)
| CmdSetLandscape (visible : bool)
| CmdSetAzimuthalGrid (visible : bool)
| CmdSetEquatorialGrid (visible : bool)
| CmdSetMilkyway (visible : bool).

Definition run_command (b : StellariumBridge.t) (c : Command) : M unit :=
  match c with
  | CmdSetLocation lat lon => StellariumBridge.set_location b lat lon
  | CmdSetDatetime ts => StellariumBridge.set_datetime b ts
  | CmdLookAtObject name => StellariumBridge.look_at_object b name
  | CmdSetFov f => StellariumBridge.set_fov b f
  | CmdSetConstellationLines v => StellariumBridge.set_constellation_lines b v
  | CmdSetConstellationLabels v => StellariumBridge.set_constellation_labels b v
  | CmdSetAtmosphere v => StellariumBridge.set_atmosphere b v
  | CmdSetLandscape v => StellariumBridge.set_landscape b v
  | CmdSetAzimuthalGrid v => StellariumBridge.set_azimuthal_grid b v
  | CmdSetEquatorialGrid v => StellariumBridge.set_equatorial_grid b v
  | CmdSetMilkyway v => StellariumBridge.set_milkyway b v
  end.

Inductive Query : Type :=
| QryAltitude (object_name : string)
| QryAzimuth (object_name : string)
| QryIsReady.

Definition run_query (b : StellariumBridge.t) (q : Query) : M PyVal :=
  match q with
  | QryAltitude name => StellariumBridge.get_object_altitude b name
  | QryAzimuth name => StellariumBridge.get_object_azimuth b name
  | QryIsReady => StellariumBridge.is_ready b
  end.

(** ** [StellariumConfig] methods

    Configuration objects live in [configs]; a reference is an index into
    it, so that "the same instance" is equality of references. *)

Module Config.

Definition js_missing_message (js_file : Path) : string :=
  "stellarium-web-engine.js not found at " +:+ path_str js_file.

Definition validate (self : StellariumConfig) : M unit :=
  match build_dir self with
  | Some d =>
      let js_file := d // "stellarium-web-engine.js" in
      w ← get_world;
      if fs_exists (env w) js_file then mret ()
      else mthrow (FileNotFoundError (js_missing_message js_file))
  | None => mret ()
  end.

Definition _set_urls (self : StellariumConfig) : StellariumConfig :=
  {| build_dir := build_dir self; data_dir := data_dir self;
     url_prefix := url_prefix self;
     js_url := url_prefix self +:+ "/build/stellarium-web-engine.js";
     wasm_url := url_prefix self +:+ "/build/stellarium-web-engine.wasm";
     data_url := url_prefix self +:+ "/data/";
     init_script_url := url_prefix self +:+ "/components/stellarium_init.js";
     _mounted := _mounted self |}.

Definition set_mounted (b : bool) (self : StellariumConfig) : StellariumConfig :=
  {| build_dir := build_dir self; data_dir := data_dir self;
     url_prefix := url_prefix self; js_url := js_url self;
     wasm_url := wasm_url self; data_url := data_url self;
     init_script_url := init_script_url self; _mounted := b |}.

(** [app.add_static_files(url, dir)]; whether the framework accepts the
    directory is the environment's [static_accepts]. *)
Definition add_static_files (url dir : string) : M unit :=
  emit (EvAddStaticFiles url dir);;
  w ← get_world;
  if static_accepts (env w) dir then mret ()
  else mthrow (RuntimeError ("Directory '" +:+ dir +:+ "' does not exist")).

(** In-place update of the object behind reference [r]. *)
Definition update (r : nat) (f : StellariumConfig → StellariumConfig) : M unit := λ w,
  (Return (), with_configs (alter f r (configs w)) w).

Definition set_active (a : option nat) : M unit := λ w,
  (Return (), with_active a w).

Definition mount (r : nat) : M nat :=
  w ← get_world;
  match configs w !! r with
  | None => mthrow (RuntimeError "no such object")
  | Some self =>
      if _mounted self then mret r
      else
        match _active w with
        | Some a => mret a
        | None =>
            validate self;;
            add_static_files (url_prefix self +:+ "/build") (opt_path_str (build_dir self));;
            add_static_files (url_prefix self +:+ "/data") (opt_path_str (data_dir self));;
            add_static_files (url_prefix self +:+ "/components")
              (path_str (path_parent (module_file (env w))));;
            update r _set_urls;;
            update r (set_mounted true);;
            set_active (Some r);;
            emit (EvPrint "[StellariumWidget] Mounted static files:");;
            emit (EvPrint ("  Build: " +:+ opt_path_str (build_dir self)));;
            emit (EvPrint ("  Data:  " +:+ opt_path_str (data_dir self)));;
            mret r
        end
  end.

Definition get_active : M nat :=
  w ← get_world;
  match _active w with
  | None => mthrow (RuntimeError "No Stellarium configuration is active.")
  | Some a => mret a
  end.

(** Allocation of a new instance. *)
Definition alloc (c : StellariumConfig) : M nat := λ w,
  (Return (length (configs w)), with_configs (configs w ++ [c])%list w).

Definition auto_discover : M nat :=
  w ← get_world;
  match List.find (λ parent, fs_exists (env w) (parent // "extern" // "stellarium"))
          (parents (module_file (env w))) with
  | Some parent =>
      let stellarium_dir := parent // "extern" // "stellarium" in
      alloc (new_config (Some (stellarium_dir // "build"))
                        (Some (stellarium_dir // "apps" // "test-skydata"))
                        "/swe")
  | None => mthrow (RuntimeError "Could not auto-discover Stellarium paths.")
  end.

Definition _reset : M unit := set_active None.

End Config.

(** ** [StellariumState] *)

Record StellariumState : Type := {
  latitude : PyNum;
  longitude : PyNum;
  altitude : PyNum;
  datetime_utc : Q;
  fov : PyNum;
  is_loaded : bool;
  is_ready : bool;
}.

(** The dataclass defaults for the fields the caller does not pass;
    [now] is the clock reading that [__post_init__] stores. *)
Definition new_state (now : Q) (lat lon : PyNum) : StellariumState :=
  {| latitude := lat; longitude := lon; altitude := Fin 142;
     datetime_utc := now; fov := Fin 60;
     is_loaded := false; is_ready := false |}.

Definition set_latitude (x : PyNum) (s : StellariumState) : StellariumState :=
  {| latitude := x; longitude := longitude s; altitude := altitude s;
     datetime_utc := datetime_utc s; fov := fov s;
     is_loaded := is_loaded s; is_ready := is_ready s |}.

Definition set_longitude (x : PyNum) (s : StellariumState) : StellariumState :=
  {| latitude := latitude s; longitude := x; altitude := altitude s;
     datetime_utc := datetime_utc s; fov := fov s;
     is_loaded := is_loaded s; is_ready := is_ready s |}.

Definition set_altitude (x : PyNum) (s : StellariumState) : StellariumState :=
  {| latitude := latitude s; longitude := longitude s; altitude := x;
     datetime_utc := datetime_utc s; fov := fov s;
     is_loaded := is_loaded s; is_ready := is_ready s |}.

Definition set_state_fov (x : PyNum) (s : StellariumState) : StellariumState :=
  {| latitude := latitude s; longitude := longitude s; altitude := altitude s;
     datetime_utc := datetime_utc s; fov := x;
     is_loaded := is_loaded s; is_ready := is_ready s |}.

Definition set_is_ready (b : bool) (s : StellariumState) : StellariumState :=
  {| latitude := latitude s; longitude := longitude s; altitude := altitude s;
     datetime_utc := datetime_utc s; fov := fov s;
     is_loaded := is_loaded s; is_ready := b |}.

(** ** Display elements

    The framework's elements are passive stores here: assigning [value],
    [set_text], [classes] and [cancel] change the element and nothing
    else. *)

Record Label : Type := {
  text : LabelText;
  classes : list string;
}.

Record NumberInput : Type := {
  value : PyNum;
}.

Record Timer : Type := {
  interval : Q;
  cancelled : bool;
}.

(** [el.classes(add, remove=remove)] *)
Definition classes_update (add remove : string) (cls : list string) : list string :=
  let kept := List.filter (λ c, negb (String.eqb c remove)) cls in
  if existsb (String.eqb add) kept then kept else (kept ++ [add])%list.

Definition label_set_text (t : LabelText) (l : Label) : Label :=
  {| text := t; classes := classes l |}.

Definition label_classes (add remove : string) (l : Label) : Label :=
  {| text := text l; classes := classes_update add remove (classes l) |}.

Definition timer_cancel (t : Timer) : Timer :=
  {| interval := interval t; cancelled := true |}.

(** Truthiness of a value in an [if]. *)
Definition py_truthy (v : PyVal) : bool :=
  match v with
  | PyNone => false
  | PyBool b => b
  | PyFloat q => negb (Qeq_bool q 0)
  | PyStr s => negb (String.eqb s EmptyString)
  | PyDict => true
  end.


(** ** [StellariumWidget] *)

Module StellariumWidget.

Record t : Type := mk {
  _config : nat;
  widget_id : string;
  canvas_id : string;
  _bridge : StellariumBridge.t;
  state : StellariumState;
  height : string;
  show_controls : bool;
  show_status_bar : bool;
  _container : option unit;
  _status_label : option Label;
  _lat_input : option NumberInput;
  _lon_input : option NumberInput;
  _ready_indicator : option Label;
  _check_timer : option Timer;
  _lat_label : option Label;
  _lon_label : option Label;
}.

Definition with_state (s : StellariumState) (self : t) : t :=
  let 'mk a b c d _ f g h i j k l m n o p := self in
  mk a b c d s f g h i j k l m n o p.

Definition with_container (x : option unit) (self : t) : t :=
  let 'mk a b c d e f g h _ j k l m n o p := self in
  mk a b c d e f g h x j k l m n o p.

Definition with_status_label (x : option Label) (self : t) : t :=
  let 'mk a b c d e f g h i _ k l m n o p := self in
  mk a b c d e f g h i x k l m n o p.

Definition with_lat_input (x : option NumberInput) (self : t) : t :=
  let 'mk a b c d e f g h i j _ l m n o p := self in
  mk a b c d e f g h i j x l m n o p.

Definition with_lon_input (x : option NumberInput) (self : t) : t :=
  let 'mk a b c d e f g h i j k _ m n o p := self in
  mk a b c d e f g h i j k x m n o p.

Definition with_ready_indicator (x : option Label) (self : t) : t :=
  let 'mk a b c d e f g h i j k l _ n o p := self in
  mk a b c d e f g h i j k l x n o p.

Definition with_check_timer (x : option Timer) (self : t) : t :=
  let 'mk a b c d e f g h i j k l m _ o p := self in
  mk a b c d e f g h i j k l m x o p.

Definition with_lat_label (x : option Label) (self : t) : t :=
  let 'mk a b c d e f g h i j k l m n _ p := self in
  mk a b c d e f g h i j k l m n x p.

Definition with_lon_label (x : option Label) (self : t) : t :=
  let 'mk a b c d e f g h i j k l m n o _ := self in
  mk a b c d e f g h i j k l m n o x.

(** [self.state.<field> = ...] *)
Definition assign (field : StateField) (f : StellariumState → StellariumState)
    (self : t) : M t :=
  emit (EvStore field);;
  mret (with_state (f (state self)) self).

(** The constructor.  [short_id] is the eight hexadecimal digits taken
    from a fresh UUID, [now] the clock reading. *)
Definition __init__ (short_id : string) (now : Q) (height : string)
    (show_controls show_status_bar : bool) (config : option nat) : M t :=
  cfg ← match config with
        | Some c => mret c
        | None => Config.auto_discover
        end;
  let widget_id := "stel_" +:+ short_id in
  mret {| _config := cfg;
          widget_id := widget_id;
          canvas_id := widget_id +:+ "_canvas";
          _bridge := StellariumBridge.__init__ widget_id;
          state := new_state now (Fin (4003784 # 100000)) (Fin (-7534238 # 100000));
          height := height;
          show_controls := show_controls;
          show_status_bar := show_status_bar;
          _container := None; _status_label := None;
          _lat_input := None; _lon_input := None;
          _ready_indicator := None; _check_timer := None;
          _lat_label := None; _lon_label := None |}.

Definition _render_control_bar (self : t) : M t :=
  emit (EvCreate ControlBar);;
  emit (EvCreate LatInput);;
  let self := with_lat_input (Some {| value := latitude (state self) |}) self in
  emit (EvCreate LonInput);;
  let self := with_lon_input (Some {| value := longitude (state self) |}) self in
  mret self.

Definition _check_engine_ready (self : t) : M t :=
  try_except
    (ready ← StellariumBridge.is_ready (_bridge self);
     if py_truthy ready then
       self ← assign FIsReady (set_is_ready true) self;
       self ← match _status_label self with
              | Some l =>
                  emit (EvSetText StatusLabel (Literal "Stellarium ready"));;
                  emit (EvClasses StatusLabel "text-green-400" "text-gray-400");;
                  mret (with_status_label
                          (Some (label_classes "text-green-400" "text-gray-400"
                                   (label_set_text (Literal "Stellarium ready") l)))
                          self)
              | None => mret self
              end;
       self ← match _ready_indicator self with
              | Some i =>
                  emit (EvClasses ReadyIndicator "text-green-500" "text-yellow-500");;
                  mret (with_ready_indicator
                          (Some (label_classes "text-green-500" "text-yellow-500" i))
                          self)
              | None => mret self
              end;
       match _check_timer self with
       | Some tm =>
           emit (EvCancel CheckTimer);;
           mret (with_check_timer (Some (timer_cancel tm)) self)
       | None => mret self
       end
     else mret self)
    (λ _, mret self).

Definition _inject_init_script (self : t) : M t :=
  w ← get_world;
  match configs w !! _config self with
  | None => mthrow (RuntimeError "no such object")
  | Some config =>
      let args :=
        {| arg_widgetId := widget_id self;
           arg_canvasId := canvas_id self;
           arg_latitude := latitude (state self);
           arg_longitude := longitude (state self);
           arg_jsUrl := js_url config;
           arg_wasmUrl := wasm_url config;
           arg_dataUrl := data_url config |} in
      emit (EvAddHeadScript (init_script_url config));;
      run_javascript (InitCall args);;
      emit (EvCreate CheckTimer);;
      mret (with_check_timer (Some {| interval := 1 # 2; cancelled := false |}) self)
  end.

Definition render (self : t) : M t :=
  Config.mount (_config self);;
  emit (EvCreate Container);;
  let self := with_container (Some ()) self in
  self ← (if show_controls self then _render_control_bar self else mret self);
  emit (EvCreate Canvas);;
  self ← (if show_status_bar self then
            emit (EvCreate StatusLabel);;
            let self :=
              with_status_label
                (Some {| text := Literal "Initializing Stellarium...";
                         classes := ["text-gray-400"] |}) self in
            emit (EvCreate LatLabel);;
            let self :=
              with_lat_label
                (Some {| text := LatText (latitude (state self)); classes := [] |})
                self in
            emit (EvCreate LonLabel);;
            mret (with_lon_label
                    (Some {| text := LonText (longitude (state self)); classes := [] |})
                    self)
          else mret self);
  _inject_init_script self.

Definition set_location (lat lon alt : PyNum) (self : t) : M t :=
  self ← assign FLatitude (set_latitude (py_max (Fin (-90)) (py_min (Fin 90) lat))) self;
  self ← assign FLongitude (set_longitude (py_max (Fin (-180)) (py_min (Fin 180) lon))) self;
  self ← assign FAltitude (set_altitude alt) self;
  self ← match _lat_input self with
         | Some _ =>
             emit (EvSetValue LatInput (latitude (state self)));;
             mret (with_lat_input (Some {| value := latitude (state self) |}) self)
         | None => mret self
         end;
  self ← match _lon_input self with
         | Some _ =>
             emit (EvSetValue LonInput (longitude (state self)));;
             mret (with_lon_input (Some {| value := longitude (state self) |}) self)
         | None => mret self
         end;
  self ← match _lat_label self with
         | Some l =>
             emit (EvSetText LatLabel (LatText (latitude (state self))));;
             mret (with_lat_label
                     (Some (label_set_text (LatText (latitude (state self))) l)) self)
         | None => mret self
         end;
  self ← match _lon_label self with
         | Some l =>
             emit (EvSetText LonLabel (LonText (longitude (state self))));;
             mret (with_lon_label
                     (Some (label_set_text (LonText (longitude (state self))) l)) self)
         | None => mret self
         end;
  StellariumBridge.set_location (_bridge self) (latitude (state self)) (longitude (state self));;
  mret self.


Definition look_at_object (object_name : string) (self : t) : M t :=
  StellariumBridge.look_at_object (_bridge self) object_name;;
  mret self.

Definition set_fov (fov_degrees : PyNum) (self : t) : M t :=
  self ← assign FFov (set_state_fov fov_degrees) self;
  StellariumBridge.set_fov (_bridge self) fov_degrees;;
  mret self.

Definition set_constellation_lines (visible : bool) (self : t) : M t :=
  StellariumBridge.set_constellation_lines (_bridge self) visible;;
  mret self.

Definition set_atmosphere (visible : bool) (self : t) : M t :=
  StellariumBridge.set_atmosphere (_bridge self) visible;;
  mret self.

Definition set_landscape (visible : bool) (self : t) : M t :=
  StellariumBridge.set_landscape (_bridge self) visible;;
  mret self.

Definition set_azimuthal_grid (visible : bool) (self : t) : M t :=
  StellariumBridge.set_azimuthal_grid (_bridge self) visible;;
  mret self.

Definition set_equatorial_grid (visible : bool) (self : t) : M t :=
  StellariumBridge.set_equatorial_grid (_bridge self) visible;;
  mret self.

Definition get_object_altitude (object_name : string) (self : t) : M PyVal :=
  StellariumBridge.get_object_altitude (_bridge self) object_name.

End StellariumWidget.

(** ** [create_stellarium_view]

    The widget is built, moved to the coordinates given (the altitude is
    left to [set_location]'s default, 0) and rendered. *)

Definition create_stellarium_view (short_id : string) (now : Q)
    (latitude longitude : PyNum) (height : string)
    (show_controls show_status_bar : bool) (config : option nat)
    : M StellariumWidget.t :=
  widget ← StellariumWidget.__init__ short_id now height show_controls show_status_bar config;
  widget ← StellariumWidget.set_location latitude longitude (Fin 0) widget;
  StellariumWidget.render widget.

(** ** [scripts.py]: fetching the engine sources *)

Module Scripts.

(** What [git clone] does when spawned: the clone succeeds, git exits with
    a failure (whose text is [err]), or there is no git to run.  Other
    ways in which starting the command can fail are not followed. *)
Inductive GitOutcome : Type :=
| GitOk
| GitFails (err : string)
| GitMissing.

(** How a run ends: normally, by [sys.exit(code)], or by an [OSError] that
    nothing catches. *)
Inductive Result (A : Type) : Type :=
| Ok (a : A)
| SystemExit (code : nat)
| OSError.
Arguments Ok {A} a.
Arguments SystemExit {A} code.
Arguments OSError {A}.

(** The process and its surroundings: the file system, where the script
    and the working directory are, what git and [mkdir] will do, the lines
    printed so far and the commands spawned so far. *)
Record Sys : Type := {
  fs : Path → bool;
  script_file : Path;
  cwd : Path;
  git : GitOutcome;
  mkdir_allowed : Path → bool;
  stdout : list string;
  spawned : list (list string);
}.

Definition with_fs (f : Path → bool) (s : Sys) : Sys :=
  {| fs := f; script_file := script_file s; cwd := cwd s; git := git s;
     mkdir_allowed := mkdir_allowed s; stdout := stdout s; spawned := spawned s |}.

Definition with_stdout (out : list string) (s : Sys) : Sys :=
  {| fs := fs s; script_file := script_file s; cwd := cwd s; git := git s;
     mkdir_allowed := mkdir_allowed s; stdout := out; spawned := spawned s |}.

Definition with_spawned (cmds : list (list string)) (s : Sys) : Sys :=
  {| fs := fs s; script_file := script_file s; cwd := cwd s; git := git s;
     mkdir_allowed := mkdir_allowed s; stdout := stdout s; spawned := cmds |}.

Definition Script (A : Type) : Type := Sys → Result A * Sys.

#[global] Instance Script_ret : MRet Script := λ A a s, (Ok a, s).

#[global] Instance Script_bind : MBind Script := λ A B f m s,
  match m s with
  | (Ok a, s') => f a s'
  | (SystemExit code, s') => (SystemExit code, s')
  | (OSError, s') => (OSError, s')
  end.

Definition print (line : string) : Script unit := λ s,
  (Ok (), with_stdout (stdout s ++ [line])%list s).

Definition path_exists (p : Path) : Script bool := λ s, (Ok (fs s p), s).

Definition get_cwd : Script Path := λ s, (Ok (cwd s), s).

Definition get_file : Script Path := λ s, (Ok (script_file s), s).

Definition sys_exit {A} (code : nat) : Script A := λ s, (SystemExit code, s).

(** [p.mkdir(parents=True)]: the directory and its missing ancestors come
    into being, or the operating system refuses (and what a refused call
    leaves behind is not followed further). *)
Definition mkdir_parents (p : Path) : Script unit := λ s,
  if mkdir_allowed s p
  then (Ok (), with_fs (λ q, fs s q || bool_decide (q `prefix_of` p)) s)
  else (OSError, s).

(** The three ways [subprocess.run(..., check=True)] ends here; a
    successful clone leaves the target directory behind. *)
Inductive RunResult : Type :=
| Completed
| CalledProcessError (err : string)
| FileNotFound.

Definition subprocess_run_git_clone (url : string) (target : Path) : Script RunResult := λ s,
  let s1 := with_spawned (spawned s ++ [["git"; "clone"; url; path_str target]])%list s in
  match git s with
  | GitOk => (Ok Completed, with_fs (λ q, fs s q || bool_decide (q = target)) s1)
  | GitFails err => (Ok (CalledProcessError err), s1)
  | GitMissing => (Ok FileNotFound, s1)
  end.

Definition repository_url : string :=
  "https://github.com/Stellarium/stellarium-web-engine.git".

(** [c * n] on strings. *)
Fixpoint str_mul (c : string) (n : nat) : string :=
  match n with
  | O => EmptyString
  | S k => c +:+ str_mul c k
  end.

Definition fetch_engine : Script unit :=
  file ← get_file;
  let package_dir := path_parent (path_parent file) in
  let extern_dir := package_dir // "extern" in
  found ← path_exists extern_dir;
  extern_dir ← (if (found : bool) then (mret extern_dir : Script Path)
                else here ← get_cwd; mret (here // "extern"));
  found ← path_exists extern_dir;
  (if (found : bool) then (mret () : Script unit)
   else print ("Creating extern directory at: " +:+ path_str extern_dir);;
        mkdir_parents extern_dir);;
  let stellarium_dir := extern_dir // "stellarium" in
  found ← path_exists stellarium_dir;
  (if (found : bool) then
     print ("stellarium-web-engine already exists at: " +:+ path_str stellarium_dir);;
     print "To re-fetch, remove the directory first:";;
     print ("  rm -rf " +:+ path_str stellarium_dir);;
     sys_exit 1
   else (mret () : Script unit));;
  print "Cloning stellarium-web-engine...";;
  print ("  Target: " +:+ path_str stellarium_dir);;
  print EmptyString;;
  r ← subprocess_run_git_clone repository_url stellarium_dir;
  match r with
  | CalledProcessError err =>
      print ("Error cloning repository: " +:+ err);;
      (sys_exit 1 : Script unit)
  | FileNotFound =>
      print "Error: git is not installed or not in PATH";;
      sys_exit 1
  | Completed =>
      print EmptyString;;
      print (str_mul "=" 60);;
      print "stellarium-web-engine cloned successfully!";;
      print (str_mul "=" 60);;
      print EmptyString;;
      print "Next steps - build the WebAssembly engine:";;
      print EmptyString;;
      print "  1. Install Emscripten SDK:";;
      print "     https://emscripten.org/docs/getting_started/downloads.html";;
      print EmptyString;;
      print "  2. Install SCons:";;
      print "     pip install scons";;
      print EmptyString;;
      print "  3. Build:";;
      print ("     cd " +:+ path_str stellarium_dir);;
      print "     source /path/to/emsdk/emsdk_env.sh";;
      print "     make js";;
      print EmptyString;;
      print "The build will create:";;
      print ("  " +:+ path_str (stellarium_dir // "build" // "stellarium-web-engine.js"));;
      print ("  " +:+ path_str (stellarium_dir // "build" // "stellarium-web-engine.wasm"))
  end.

End Scripts.

(** * Properties *)

Module B := StellariumBridge.
Module W := StellariumWidget.

(** ** Observations on a run *)

Definition dispatched (evs : list Event) : list Fragment :=
  omap (λ ev, match ev with EvRunJavascript f => Some f | _ => None end) evs.

Definition warnings (evs : list Event) : list string :=
  omap (λ ev, match ev with EvWarning m => Some m | _ => None end) evs.



(** The handle [window.<id>_stel] is unset, or set to a falsy value. *)
Definition handle_absent (b : B.t) (w : World) : Prop :=
  js_truthy (window_get (window w) (B._stel_ref b)) = false.

(** [lo <= x <= hi] as Python evaluates it. *)
Definition within (lo hi : Q) (x : PyNum) : Prop :=
  py_le (Fin lo) x = true ∧ py_le x (Fin hi) = true.

(** The display elements that [set_location] refreshes, in program order. *)
Definition display_updates (self : W.t) (clat clon : PyNum) : list Event :=
  (match W._lat_input self with
   | Some _ => [EvSetValue LatInput clat]
   | None => []
   end ++
   match W._lon_input self with
   | Some _ => [EvSetValue LonInput clon]
   | None => []
   end ++
   match W._lat_label self with
   | Some _ => [EvSetText LatLabel (LatText clat)]
   | None => []
   end ++
   match W._lon_label self with
   | Some _ => [EvSetText LonLabel (LonText clon)]
   | None => []
   end)%list.

(** The warning that [_query] logs for exception [e]. *)
Definition query_warning (b : B.t) (e : PyExn) : string :=
  "[" +:+ B.widget_id b +:+ "] JS query failed: " +:+ exn_str e.

(** The body that each command interpolates into the [_run] wrapper. *)
Definition command_body (c : Command) : list JsStmt :=
  match c with
  | CmdSetLocation lat lon => [AssignLatitude lat; AssignLongitude lon]
  | CmdSetDatetime ts => [AssignUtc ts]
  | CmdLookAtObject name => [SelectAndLock name]
  | CmdSetFov f => [AssignFov f]
  | CmdSetConstellationLines v => [AssignVisible ConstellationLines v]
  | CmdSetConstellationLabels v => [AssignVisible ConstellationLabels v]
  | CmdSetAtmosphere v => [AssignVisible Atmosphere v]
  | CmdSetLandscape v => [AssignVisible Landscape v]
  | CmdSetAzimuthalGrid v => [AssignVisible AzimuthalGrid v]
  | CmdSetEquatorialGrid v => [AssignVisible EquatorialGrid v]
  | CmdSetMilkyway v => [AssignVisible Milkyway v]
  end.

(** The name that [is_ready] reads. *)
Definition ready_ref (b : B.t) : string :=
  "window." +:+ B.widget_id b +:+ "_ready".

(** The widget after a poll that has seen the flag. *)
Definition mark_ready (self : W.t) : W.t :=
  W.with_check_timer (timer_cancel <$> W._check_timer self)
    (W.with_ready_indicator
       (label_classes "text-green-500" "text-yellow-500" <$> W._ready_indicator self)
       (W.with_status_label
          ((λ l, label_classes "text-green-400" "text-gray-400"
                   (label_set_text (Literal "Stellarium ready") l))
             <$> W._status_label self)
          (W.with_state (set_is_ready true (W.state self)) self))).

(** The effects of such a poll after the evaluation itself. *)
Definition ready_effects (self : W.t) : list Event :=
  ([EvStore FIsReady] ++
   match W._status_label self with
   | Some _ => [EvSetText StatusLabel (Literal "Stellarium ready");
                EvClasses StatusLabel "text-green-400" "text-gray-400"]
   | None => []
   end ++
   match W._ready_indicator self with
   | Some _ => [EvClasses ReadyIndicator "text-green-500" "text-yellow-500"]
   | None => []
   end ++
   match W._check_timer self with
   | Some _ => [EvCancel CheckTimer]
   | None => []
   end)%list.

Definition poll_fragment (self : W.t) : Fragment :=
  ReadyTest (ready_ref (W._bridge self)).

(** Whether a poll in world [w] sees the flag. *)
Definition flag_seen (self : W.t) (w : World) : bool :=
  match host w with
  | Responds => js_strict_true (window_get (window w) (ready_ref (W._bridge self)))
  | Fails _ => false
  end.

(** A sequence of [mount()] calls, each result kept. *)
Fixpoint mount_all (rs : list nat) (w : World) : list (Outcome nat) * World :=
  match rs with
  | [] => ([], w)
  | r :: rest =>
      let '(o, w1) := Config.mount r w in
      let '(os, w2) := mount_all rest w1 in
      (o :: os, w2)
  end.

(** The state at process start: no configuration is active or mounted. *)
Definition fresh_process (w : World) : Prop :=
  _active w = None ∧ Forall (λ c, _mounted c = false) (configs w).

(** A mounted configuration is the active one. *)
Definition singleton_inv (w : World) : Prop :=
  ∀ r c, configs w !! r = Some c → _mounted c = true → _active w = Some r.

(** Two worlds with the same configuration objects and active reference. *)
Definition same_registry (w w' : World) : Prop :=
  configs w' = configs w ∧ _active w' = _active w ∧ env w' = env w.

(** The part of [mount] that runs when nothing is mounted or active;
    [w0] is the world in which [mount] was entered. *)
Definition mount_fresh (r : nat) (self : StellariumConfig) (w0 : World) : M nat :=
  Config.validate self;;
  Config.add_static_files (url_prefix self +:+ "/build") (opt_path_str (build_dir self));;
  Config.add_static_files (url_prefix self +:+ "/data") (opt_path_str (data_dir self));;
  Config.add_static_files (url_prefix self +:+ "/components")
    (path_str (path_parent (module_file (env w0))));;
  Config.update r Config._set_urls;;
  Config.update r (Config.set_mounted true);;
  Config.set_active (Some r);;
  emit (EvPrint "[StellariumWidget] Mounted static files:");;
  emit (EvPrint ("  Build: " +:+ opt_path_str (build_dir self)));;
  emit (EvPrint ("  Data:  " +:+ opt_path_str (data_dir self)));;
  mret r.


(** ** Sample worlds and widgets *)

Definition sample_env : Env :=
  {| fs_exists := λ p, match p with "opt" :: _ => true | _ => false end;
     static_accepts := String.prefix "/opt";
     module_file := ["opt"; "app"; "stellarium_widget"; "stellarium_widget.py"] |}.


Definition sun : SkyObject :=
  {| obj_id := "NAME Sun"; obj_pvo := Some (1, 0, 0)%Q |}.

(** An engine that knows the Sun and reports it at azimuth 135 and raw
    altitude 200. *)
Definition sample_engine : Engine :=
  {| getObj := λ n, if String.eqb n "NAME Sun" then Some sun else None;
     horizontal_deg := λ _ _ _, (135, 200)%Q;
     date2MJD := λ ms, (ms / 86400000 + 40587)%Q;
     observer_latitude := 0; observer_longitude := 0; observer_utc := 0;
     core_fov := 60; core_selection := None; locked_on := None;
     layer_visible := λ _, true |}.

Definition sample_bridge : B.t := B.__init__ "stel_1f2e3d4c".

(** The page before the engine has been created. *)
Definition world_before_init : World :=
  {| env := sample_env; host := Responds; window := ∅;
     configs := []; _active := None; events := [] |}.

(** The page with the engine created and the readiness flag set. *)
Definition world_ready : World :=
  {| env := sample_env; host := Responds;
     window := {[ "window.stel_1f2e3d4c_stel" := JObj sample_engine;
                  "window.stel_1f2e3d4c_ready" := JBool true ]};
     configs := []; _active := None; events := [] |}.

(** A host whose evaluations time out. *)
Definition world_timeout : World :=
  {| env := sample_env; host := Fails TimeoutError; window := ∅;
     configs := []; _active := None; events := [] |}.

Definition sample_config : StellariumConfig :=
  new_config (Some ["opt"; "stellarium"; "build"])
             (Some ["opt"; "stellarium"; "apps"; "test-skydata"]) "/swe".

(** A configuration whose build directory does not exist. *)
Definition broken_config : StellariumConfig :=
  new_config (Some ["missing"; "build"]) (Some ["missing"; "data"]) "/alt".

(** Process start with two configuration objects, none mounted. *)
Definition world_fresh : World :=
  {| env := sample_env; host := Responds; window := ∅;
     configs := [sample_config; broken_config]; _active := None; events := [] |}.


(** The widget as [StellariumWidget(config=...)] builds it. *)
Definition sample_new_widget : W.t :=
  {| W._config := 0;
     W.widget_id := "stel_1f2e3d4c";
     W.canvas_id := "stel_1f2e3d4c_canvas";
     W._bridge := sample_bridge;
     W.state := new_state 0 (Fin (4003784 # 100000)) (Fin (-7534238 # 100000));
     W.height := "500px";
     W.show_controls := true;
     W.show_status_bar := true;
     W._container := None; W._status_label := None;
     W._lat_input := None; W._lon_input := None;
     W._ready_indicator := None; W._check_timer := None;
     W._lat_label := None; W._lon_label := None |}.

(** The same widget after [render()]. *)
Definition sample_widget : W.t :=
  {| W._config := 0;
     W.widget_id := "stel_1f2e3d4c";
     W.canvas_id := "stel_1f2e3d4c_canvas";
     W._bridge := sample_bridge;
     W.state := new_state 0 (Fin (4003784 # 100000)) (Fin (-7534238 # 100000));
     W.height := "500px";
     W.show_controls := true;
     W.show_status_bar := true;
     W._container := Some ();
     W._status_label :=
       Some {| text := Literal "Initializing Stellarium..."; classes := ["text-gray-400"] |};
     W._lat_input := Some {| value := Fin (4003784 # 100000) |};
     W._lon_input := Some {| value := Fin (-7534238 # 100000) |};
     W._ready_indicator := None;
     W._check_timer := Some {| interval := 1 # 2; cancelled := false |};
     W._lat_label :=
       Some {| text := LatText (Fin (4003784 # 100000)); classes := [] |};
     W._lon_label :=
       Some {| text := LonText (Fin (-7534238 # 100000)); classes := [] |} |}.

(** A second widget, built around the broken configuration. *)
Definition second_widget : W.t :=
  {| W._config := 1;
     W.widget_id := "stel_0a1b2c3d";
     W.canvas_id := "stel_0a1b2c3d_canvas";
     W._bridge := B.__init__ "stel_0a1b2c3d";
     W.state := new_state 0 (Fin (4003784 # 100000)) (Fin (-7534238 # 100000));
     W.height := "500px";
     W.show_controls := true;
     W.show_status_bar := true;
     W._container := None; W._status_label := None;
     W._lat_input := None; W._lon_input := None;
     W._ready_indicator := None; W._check_timer := None;
     W._lat_label := None; W._lon_label := None |}.

(** [render()] on the new widget at process start. *)
Definition sample_rendered : option (W.t * World) :=
  match W.render sample_new_widget world_fresh with
  | (Return self', w2) => Some (self', w2)
  | _ => None
  end.

(** The page once the engine has started: handle and flag are set. *)
Definition engine_started (w : World) : World :=
  with_window (<["window.stel_1f2e3d4c_stel" := JObj sample_engine]>
                 (<["window.stel_1f2e3d4c_ready" := JBool true]> (window w))) w.

(** ... followed by the first poll after the engine has started. *)
Definition sample_polled : option (W.t * World) :=
  match sample_rendered with
  | Some (self, w) =>
      match W._check_engine_ready self (engine_started w) with
      | (Return self', w') => Some (self', w')
      | _ => None
      end
  | None => None
  end.

(** ** Observations on the engine, the stored location and [fetch_engine] *)

(** The engine a statement result leaves behind. *)
Definition result_engine (r : StmtResult) : Engine :=
  match r with Next e | Returned _ e | Thrown e => e end.

(** The setter of each layer. *)
Definition layer_command (l : Layer) (visible : bool) : Command :=
  match l with
  | ConstellationLines => CmdSetConstellationLines visible
  | ConstellationLabels => CmdSetConstellationLabels visible
  | Atmosphere => CmdSetAtmosphere visible
  | Landscape => CmdSetLandscape visible
  | AzimuthalGrid => CmdSetAzimuthalGrid visible
  | EquatorialGrid => CmdSetEquatorialGrid visible
  | Milkyway => CmdSetMilkyway visible
  end.

(** The last character of a string. *)
Fixpoint last_ascii (s : string) : option Ascii.ascii :=
  match s with
  | EmptyString => None
  | String a EmptyString => Some a
  | String _ rest => last_ascii rest
  end.

(** The engine behind a bridge's handle, if the page has one. *)
Definition engine_of (b : B.t) (w : World) : option Engine :=
  match window w !! B._stel_ref b with
  | Some (JObj e) => Some e
  | _ => None
  end.

(** [max(lo, min(hi, x))] *)
Definition clamp (lo hi : Q) (x : PyNum) : PyNum :=
  py_max (Fin lo) (py_min (Fin hi) x).


(** The directory [fetch_engine] settles on for [extern]. *)
Definition chosen_extern (s : Scripts.Sys) : Path :=
  let package_extern :=
    path_parent (path_parent (Scripts.script_file s)) // "extern" in
  if Scripts.fs s package_extern then package_extern else Scripts.cwd s // "extern".

(** A file system in which every existing path has existing ancestors. *)
Definition ancestors_exist (f : Path → bool) : Prop :=
  ∀ p name, f (p // name) = true → f p = true.

(** What [fetch_engine] prints when the target is already there. *)
Definition refusal_lines (target : Path) : list string :=
  ["stellarium-web-engine already exists at: " +:+ path_str target;
   "To re-fetch, remove the directory first:";
   "  rm -rf " +:+ path_str target].

(** The one command [fetch_engine] spawns. *)
Definition clone_command (target : Path) : list string :=
  ["git"; "clone"; Scripts.repository_url; path_str target].

(** ** More samples *)

(** The bridge of the second widget. *)
Definition other_bridge : B.t := B.__init__ "stel_0a1b2c3d".

(** The process after the first configuration has been mounted. *)
Definition world_mounted : World := (Config.mount 0 world_fresh).2.

(** A configuration whose engine script exists but whose data directory the
    framework does not accept. *)
Definition half_config : StellariumConfig :=
  new_config (Some ["opt"; "stellarium"; "build"]) (Some ["srv"; "skydata"]) "/swe".

Definition world_half : World :=
  {| env := sample_env; host := Responds; window := ∅;
     configs := [half_config]; _active := None; events := [] |}.

(** A project directory without [extern], the package installed
    elsewhere; git works and directories can be made. *)
Definition sample_sys : Scripts.Sys :=
  {| Scripts.fs := λ p, bool_decide (p `prefix_of` ["home"; "ana"; "sky"]);
     Scripts.script_file := ["opt"; "venv"; "stellarium_widget"; "scripts.py"];
     Scripts.cwd := ["home"; "ana"; "sky"];
     Scripts.git := Scripts.GitOk;
     Scripts.mkdir_allowed := λ _, true;
     Scripts.stdout := [];
     Scripts.spawned := [] |}.

(** The same directory with the engine already fetched. *)
Definition sample_sys_fetched : Scripts.Sys :=
  Scripts.with_fs
    (λ p, bool_decide (p `prefix_of` ["home"; "ana"; "sky"; "extern"; "stellarium"]))
    sample_sys.

(** The same directory on a machine without git. *)
Definition sample_sys_no_git : Scripts.Sys :=
  {| Scripts.fs := Scripts.fs sample_sys;
     Scripts.script_file := Scripts.script_file sample_sys;
     Scripts.cwd := Scripts.cwd sample_sys;
     Scripts.git := Scripts.GitMissing;
     Scripts.mkdir_allowed := Scripts.mkdir_allowed sample_sys;
     Scripts.stdout := [];
     Scripts.spawned := [] |}.

(** The same directory, read-only. *)
Definition sample_sys_locked : Scripts.Sys :=
  {| Scripts.fs := Scripts.fs sample_sys;
     Scripts.script_file := Scripts.script_file sample_sys;
     Scripts.cwd := Scripts.cwd sample_sys;
     Scripts.git := Scripts.GitOk;
     Scripts.mkdir_allowed := λ _, false;
     Scripts.stdout := [];
     Scripts.spawned := [] |}.

(** ** Comparisons *)

Lemma Qltb_lt (x y : Q) : Qltb x y = true ↔ (x < y)%Q.
Proof.
  unfold Qltb. rewrite negb_true_iff, <- not_true_iff_false, Qle_bool_iff.
  split; [apply Qnot_le_lt | apply Qlt_not_le].
Qed.

Lemma Qltb_ge (x y : Q) : Qltb x y = false ↔ (y <= x)%Q.
Proof.
  unfold Qltb. rewrite negb_false_iff. apply Qle_bool_iff.
Qed.

Lemma clamp_within (lo hi : Q) (x : PyNum) :
  (lo <= hi)%Q → within lo hi (py_max (Fin lo) (py_min (Fin hi) x)).
Proof.
  intros Hlh. unfold within, py_max, py_min.
  destruct x as [q| | |]; simpl.
  - destruct (Qltb q hi) eqn:Hq; simpl.
    + destruct (Qltb lo q) eqn:Hl; simpl; rewrite !Qle_bool_iff.
      * apply Qltb_lt in Hq, Hl. split; lra.
      * split; lra.
    + apply Qltb_ge in Hq.
      destruct (Qltb lo hi) eqn:Hl; simpl; rewrite !Qle_bool_iff; split; lra.
  - destruct (Qltb lo hi) eqn:Hl; simpl; rewrite !Qle_bool_iff; split; lra.
  - rewrite !Qle_bool_iff; split; lra.
  - destruct (Qltb lo hi) eqn:Hl; simpl; rewrite !Qle_bool_iff; split; lra.
Qed.

Lemma normalize_altitude_above (alt : Q) :
  (180 < alt)%Q → normalize_altitude alt = (alt - 360)%Q.
Proof.
  intros H. unfold normalize_altitude. apply Qltb_lt in H. by rewrite H.
Qed.

Lemma normalize_altitude_below (alt : Q) :
  (alt <= 180)%Q → normalize_altitude alt = alt.
Proof.
  intros H. unfold normalize_altitude. apply Qltb_ge in H. by rewrite H.
Qed.

Lemma normalize_altitude_range (alt : Q) :
  (0 <= alt < 360)%Q →
  (-180 < normalize_altitude alt)%Q ∧ (normalize_altitude alt <= 180)%Q.
Proof.
  intros [H0 H1]. unfold normalize_altitude.
  destruct (Qltb 180 alt) eqn:H.
  - apply Qltb_lt in H. split; lra.
  - apply Qltb_ge in H. split; lra.
Qed.

(** ** [set_location]: the run of the method, step by step *)

Ltac run_monad :=
  unfold W.set_location, W.assign, B.set_location, B._run,
    run_javascript, emit, mbind, M_bind, mret, M_ret; simpl.

Lemma set_location_run (lat lon alt : PyNum) (self : W.t) (w : World) :
  let clat := py_max (Fin (-90)) (py_min (Fin 90) lat) in
  let clon := py_max (Fin (-180)) (py_min (Fin 180) lon) in
  ∃ self' w',
    W.set_location lat lon alt self w = (Return self', w') ∧
    W.state self' =
      set_altitude alt (set_longitude clon (set_latitude clat (W.state self))) ∧
    events w' =
      (events w ++ [EvStore FLatitude; EvStore FLongitude; EvStore FAltitude]
         ++ display_updates self clat clon
         ++ [EvRunJavascript (RunWrapper (B._stel_ref (W._bridge self))
                                [AssignLatitude clat; AssignLongitude clon])])%list.
Proof.
  intros clat clon.
  destruct self as [cfg wid cid br st h sc ssb ct sl li lo ri tm ll lol].
  unfold display_updates.
  destruct li, lo, ll, lol; destruct (host w) eqn:Hh;
    (eexists; eexists; split; [run_monad; rewrite ?Hh; reflexivity |]).
  all: simpl; split; [reflexivity |].
  all: rewrite <- ?app_assoc; reflexivity.
Qed.


Lemma dispatched_app (xs ys : list Event) :
  dispatched (xs ++ ys) = (dispatched xs ++ dispatched ys)%list.
Proof. unfold dispatched. apply omap_app. Qed.

Lemma warnings_app (xs ys : list Event) :
  warnings (xs ++ ys) = (warnings xs ++ warnings ys)%list.
Proof. unfold warnings. apply omap_app. Qed.


(** C3: for every latitude passed to [StellariumWidget.set_location] the
    stored latitude lies in [-90, 90], and for every longitude the stored
    longitude lies in [-180, 180]; latitude 120 is stored as 90 and
    latitude -200 as -90.  The inputs range over all Python floats,
    infinities and NaN included. *)
Theorem set_location_stores_clamped :
  (∀ lat lon alt self w, ∃ self' w',
      W.set_location lat lon alt self w = (Return self', w') ∧
      within (-90) 90 (latitude (W.state self')) ∧
      within (-180) 180 (longitude (W.state self'))) ∧
  (∀ lon alt self w, ∃ self' w',
      W.set_location (Fin 120) lon alt self w = (Return self', w') ∧
      latitude (W.state self') = Fin 90) ∧
  (∀ lon alt self w, ∃ self' w',
      W.set_location (Fin (-200)) lon alt self w = (Return self', w') ∧
      latitude (W.state self') = Fin (-90)).
Proof.
  split; [| split].
  - intros lat lon alt self w.
    destruct (set_location_run lat lon alt self w) as (self' & w' & Hrun & Hst & _).
    exists self', w'. split; [exact Hrun |]. rewrite Hst. simpl.
    split; apply clamp_within; lra.
  - intros lon alt self w.
    destruct (set_location_run (Fin 120) lon alt self w) as (self' & w' & Hrun & Hst & _).
    exists self', w'. split; [exact Hrun |]. by rewrite Hst.
  - intros lon alt self w.
    destruct (set_location_run (Fin (-200)) lon alt self w) as (self' & w' & Hrun & Hst & _).
    exists self', w'. split; [exact Hrun |]. by rewrite Hst.
Qed.


(** ** The bridge: how a fragment is evaluated *)

Lemma eval_wrapper_absent (absent : JsVal) (ref : string) (js : list JsStmt)
    (win : gmap string JsVal) :
  js_truthy (window_get win ref) = false →
  eval_wrapper absent ref js win = (JsValue absent, win).
Proof. intros H. unfold eval_wrapper. by rewrite H. Qed.

Lemma eval_wrapper_engine (absent : JsVal) (ref : string) (js : list JsStmt)
    (win : gmap string JsVal) (e : Engine) :
  win !! ref = Some (JObj e) →
  eval_wrapper absent ref js win =
    match exec_body js e with
    | Next e' => (JsValue JUndefined, <[ref := JObj e']> win)
    | Returned v e' => (JsValue v, <[ref := JObj e']> win)
    | Thrown e' => (JsThrow, <[ref := JObj e']> win)
    end.
Proof. intros H. unfold eval_wrapper, window_get. by rewrite H. Qed.

Lemma query_host_fails (b : B.t) (js : list JsStmt) (w : World) (e : PyExn) :
  host w = Fails e →
  B._query b js w =
    (Return PyNone,
     with_events (events w ++ [EvRunJavascript (QueryWrapper (B._stel_ref b) js);
                               EvWarning (query_warning b e)]) w).
Proof.
  intros H. unfold B._query, try_except, await_javascript. rewrite H.
  unfold emit, mbind, M_bind, mret, M_ret, with_events. simpl.
  by rewrite <- app_assoc.
Qed.

Lemma query_host_responds (b : B.t) (js : list JsStmt) (w : World) :
  host w = Responds →
  B._query b js w =
    match eval_fragment (QueryWrapper (B._stel_ref b) js) (window w) with
    | (JsValue v, win) =>
        (Return (to_py v),
         with_window win
           (with_events (events w ++ [EvRunJavascript (QueryWrapper (B._stel_ref b) js)]) w))
    | (JsThrow, win) =>
        (Return PyNone,
         with_window win
           (with_events
              (events w ++ [EvRunJavascript (QueryWrapper (B._stel_ref b) js);
                            EvWarning (query_warning b TimeoutError)]) w))
    end.
Proof.
  intros H. unfold B._query, try_except, await_javascript. rewrite H.
  destruct (eval_fragment _ _) as [[v|] win]; [reflexivity |].
  unfold emit, mbind, M_bind, mret, M_ret, with_events, with_window. simpl.
  by rewrite <- app_assoc.
Qed.


Lemma is_ready_host_responds (b : B.t) (w : World) :
  host w = Responds →
  B.is_ready b w =
    (Return (PyBool (js_strict_true
                       (window_get (window w) ("window." +:+ B.widget_id b +:+ "_ready")))),
     with_events
       (events w ++ [EvRunJavascript (ReadyTest ("window." +:+ B.widget_id b +:+ "_ready"))]) w).
Proof.
  intros H. unfold B.is_ready, await_javascript, mbind, M_bind, mret, M_ret.
  rewrite H. simpl.
  destruct w as [en ho win cs ac evs]; simpl.
  by destruct (js_strict_true _).
Qed.

Lemma is_ready_host_fails (b : B.t) (w : World) (e : PyExn) :
  host w = Fails e →
  B.is_ready b w =
    (Raise e,
     with_events
       (events w ++ [EvRunJavascript (ReadyTest ("window." +:+ B.widget_id b +:+ "_ready"))]) w).
Proof.
  intros H. unfold B.is_ready, await_javascript, mbind, M_bind.
  by rewrite H.
Qed.

Lemma js_strict_true_spec (v : JsVal) : js_strict_true v = true ↔ v = JBool true.
Proof.
  split; [| by intros ->].
  destruct v as [| |[|]| | |]; simpl; congruence.
Qed.

(** ** Commands *)

Lemma run_command_run (b : B.t) (c : Command) :
  run_command b c = B._run b (command_body c).
Proof. by destruct c. Qed.

(** C2, as the code has it: a command issued while the handle is absent
    is still handed to the host, as exactly one fragment; the guard inside
    that fragment returns before any effect, so the page is left as it
    was, nothing is raised, and the world keeps no record of the command
    other than the dispatch itself (nothing is queued for replay). *)
Theorem command_dropped_by_guard (b : B.t) (c : Command) (w : World) :
  handle_absent b w →
  ∃ frag w',
    run_command b c w = (Return (), w') ∧
    frag = RunWrapper (B._stel_ref b) (command_body c) ∧
    w' = with_events (events w ++ [EvRunJavascript frag]) w ∧
    dispatched (events w') = (dispatched (events w) ++ [frag])%list ∧
    window w' = window w ∧
    eval_fragment frag (window w) = (JsValue JUndefined, window w).
Proof.
  intros Habs. eexists _, _. rewrite run_command_run.
  assert (Hev : eval_fragment (RunWrapper (B._stel_ref b) (command_body c)) (window w)
                = (JsValue JUndefined, window w))
    by (simpl; by apply eval_wrapper_absent).
  assert (Hrun : B._run b (command_body c) w
                 = (Return (), with_events
                      (events w ++ [EvRunJavascript
                                      (RunWrapper (B._stel_ref b) (command_body c))]) w)).
  { unfold B._run, run_javascript. destruct (host w) eqn:Hh; [| reflexivity].
    rewrite Hev. simpl. destruct w; simpl in *. by rewrite Hh. }
  split; [exact Hrun |]. split; [reflexivity |]. split; [reflexivity |].
  split; [| split; [reflexivity | exact Hev]].
  simpl. by rewrite dispatched_app.
Qed.

Lemma command_dropped_by_guard_witness :
  ∃ frag w',
    run_command sample_bridge (CmdSetFov (Fin 30)) world_before_init = (Return (), w') ∧
    frag = RunWrapper (B._stel_ref sample_bridge) (command_body (CmdSetFov (Fin 30))) ∧
    w' = with_events (events world_before_init ++ [EvRunJavascript frag]) world_before_init ∧
    dispatched (events w') = (dispatched (events world_before_init) ++ [frag])%list ∧
    window w' = window world_before_init ∧
    eval_fragment frag (window world_before_init)
      = (JsValue JUndefined, window world_before_init).
Proof.
  apply (command_dropped_by_guard sample_bridge (CmdSetFov (Fin 30)) world_before_init).
  reflexivity.
Defined.

(** C2, as stated, fails: with the handle absent, [set_fov(30)] still
    dispatches one fragment to the host. *)
Lemma command_dispatch_counterexample :
  handle_absent sample_bridge world_before_init ∧
  dispatched (events (run_command sample_bridge (CmdSetFov (Fin 30)) world_before_init).2)
    ≠ [] ∧
  dispatched (events (run_command sample_bridge (CmdSetFov (Fin 30)) world_before_init).2)
    = [RunWrapper "window.stel_1f2e3d4c_stel" [AssignFov (Fin 30)]].
Proof. split; [reflexivity |]. split; [discriminate | reflexivity]. Qed.

(** ** Queries *)

(** C5: the altitude query subtracts 360 from the raw altitude exactly
    when the raw value exceeds 180, which takes a raw value in [0, 360)
    (the range of the engine's [anp]) into (-180, 180]; the azimuth query
    returns the raw azimuth as it is.  Raw 200 becomes -160; 170 and 180
    are kept. *)
Theorem altitude_normalization_rule (b : B.t) (w : World) (e : Engine)
    (name : string) (o : SkyObject) (p : Q * Q * Q) (az alt : Q) :
  host w = Responds →
  window w !! B._stel_ref b = Some (JObj e) →
  getObj e name = Some o →
  obj_pvo o = Some p →
  horizontal_deg e (observer_latitude e) (observer_longitude e) p = (az, alt) →
  (∃ v, (B.get_object_altitude b name w).1 = Return (PyFloat v) ∧
        ((180 < alt)%Q → v = (alt - 360)%Q) ∧
        ((alt <= 180)%Q → v = alt) ∧
        ((v == alt - 360)%Q → (180 < alt)%Q) ∧
        ((0 <= alt < 360)%Q → (-180 < v)%Q ∧ (v <= 180)%Q)) ∧
  (B.get_object_azimuth b name w).1 = Return (PyFloat az) ∧
  normalize_altitude 200 = (-160)%Q ∧
  normalize_altitude 170 = 170%Q ∧
  normalize_altitude 180 = 180%Q.
Proof.
  intros Hh Hwin Hobj Hpvo Hhor.
  split; [| split; [| by repeat split]].
  - exists (normalize_altitude alt). split.
    + unfold B.get_object_altitude. rewrite query_host_responds by done.
      simpl. rewrite (eval_wrapper_engine _ _ _ _ e) by done.
      simpl. by rewrite Hobj, Hpvo, Hhor.
    + split; [apply normalize_altitude_above |].
      split; [apply normalize_altitude_below |].
      split; [| apply normalize_altitude_range].
      intros Heq. destruct (Qlt_le_dec 180 alt) as [|Hle]; [done |].
      rewrite normalize_altitude_below in Heq by done. lra.
  - unfold B.get_object_azimuth. rewrite query_host_responds by done.
    simpl. rewrite (eval_wrapper_engine _ _ _ _ e) by done.
    simpl. by rewrite Hobj, Hpvo, Hhor.
Qed.

Lemma altitude_normalization_rule_witness :
  (B.get_object_altitude sample_bridge "NAME Sun" world_ready).1
    = Return (PyFloat (-160)) ∧
  (B.get_object_azimuth sample_bridge "NAME Sun" world_ready).1
    = Return (PyFloat 135).
Proof.
  destruct (altitude_normalization_rule sample_bridge world_ready sample_engine
              "NAME Sun" sun (1, 0, 0)%Q 135 200)
    as ((v & Hv & Habove & _) & Haz & _); try reflexivity.
  split; [| exact Haz].
  rewrite Hv, Habove; reflexivity.
Defined.



(** [is_ready] on flags that are not the boolean [true]. *)
Example is_ready_other_flags :
  let page flag :=
    with_window {[ "window.stel_1f2e3d4c_ready" := flag ]} world_before_init in
  (B.is_ready sample_bridge (page JNull)).1 = Return (PyBool false) ∧
  (B.is_ready sample_bridge (page JUndefined)).1 = Return (PyBool false) ∧
  (B.is_ready sample_bridge (page (JNum 1))).1 = Return (PyBool false) ∧
  (B.is_ready sample_bridge (page (JStr "true"))).1 = Return (PyBool false) ∧
  (B.is_ready sample_bridge (page (JBool false))).1 = Return (PyBool false).
Proof. by repeat split. Qed.




(** ** The readiness poll *)

Lemma poll_run (self : W.t) (w : World) :
  W._check_engine_ready self w =
    if flag_seen self w then
      (Return (mark_ready self),
       with_events (events w ++ EvRunJavascript (poll_fragment self) :: ready_effects self) w)
    else
      (Return self, with_events (events w ++ [EvRunJavascript (poll_fragment self)]) w).
Proof.
  unfold W._check_engine_ready, try_except, flag_seen.
  unfold mbind at 1. unfold M_bind at 1.
  destruct (host w) as [|e] eqn:Hh.
  - rewrite is_ready_host_responds by done. fold (ready_ref (W._bridge self)).
    cbn [py_truthy].
    destruct (js_strict_true _); [| reflexivity].
    destruct self as [cfg wid cid br st h sc ssb ct sl li lo ri tm ll lol].
    unfold mark_ready, ready_effects, poll_fragment.
    destruct sl, ri, tm;
      unfold W.assign, emit, mbind, M_bind, mret, M_ret, with_events; cbn;
      rewrite <- ?app_assoc; reflexivity.
  - rewrite (is_ready_host_fails _ _ e) by done. reflexivity.
Qed.

Lemma classes_update_idem (add remove : string) (cls : list string) :
  String.eqb add remove = false →
  classes_update add remove (classes_update add remove cls)
  = classes_update add remove cls.
Proof.
  intros Hne. unfold classes_update.
  set (keep := λ c : string, negb (String.eqb c remove)).
  assert (Hkk : List.filter keep (List.filter keep cls) = List.filter keep cls).
  { induction cls as [|c cls IH]; [reflexivity |]. simpl.
    destruct (keep c) eqn:Hc; simpl; rewrite ?Hc, IH; reflexivity. }
  destruct (existsb (String.eqb add) (List.filter keep cls)) eqn:Hex.
  - by rewrite Hkk, Hex.
  - assert (Hka : keep add = true) by (unfold keep; by rewrite Hne).
    rewrite List.filter_app, Hkk. cbn [List.filter]. rewrite Hka.
    rewrite existsb_app. cbn [existsb].
    by rewrite String.eqb_refl, orb_true_r.
Qed.

Lemma mark_ready_idem (self : W.t) : mark_ready (mark_ready self) = mark_ready self.
Proof.
  destruct self as [cfg wid cid br st h sc ssb ct sl li lo ri tm ll lol].
  unfold mark_ready. cbn.
  f_equal.
  - destruct sl as [l|]; [| reflexivity]. cbn. unfold label_classes, label_set_text. cbn.
    by rewrite classes_update_idem.
  - destruct ri as [l|]; [| reflexivity]. cbn. unfold label_classes. cbn.
    by rewrite classes_update_idem.
  - by destruct tm.
Qed.

Lemma flag_seen_after_poll (self : W.t) (w : World) (evs : list Event) :
  flag_seen (mark_ready self) (with_events evs w) = flag_seen self w.
Proof. by destruct self. Qed.

(** C6, as the code has it: a poll never raises, and a second poll right
    after the first returns the very same widget, so the transition to
    Ready is terminal and the callback is idempotent on the widget's
    state (the flag stays set, the label keeps its text and classes, the
    timer stays cancelled).  The callback has no guard on [is_ready],
    though: while the flag is seen, each invocation issues the store, the
    status-label update and the timer cancellation again. *)
Theorem poll_idempotent_on_state (self : W.t) (w : World) :
  ∃ self1 w1 w2,
    W._check_engine_ready self w = (Return self1, w1) ∧
    W._check_engine_ready self1 w1 = (Return self1, w2) ∧
    window w2 = window w ∧
    (is_ready (W.state self) = true → is_ready (W.state self1) = true) ∧
    (flag_seen self w = true →
       is_ready (W.state self1) = true ∧
       W._check_timer self1 = timer_cancel <$> W._check_timer self ∧
       events w2 =
         (events w1 ++ EvRunJavascript (poll_fragment self) :: ready_effects self)%list).
Proof.
  rewrite poll_run. destruct (flag_seen self w) eqn:Hseen.
  - eexists _, _, _. split; [reflexivity |].
    rewrite poll_run, flag_seen_after_poll, Hseen, mark_ready_idem.
    split; [reflexivity |].
    split; [reflexivity |].
    destruct self as [cfg wid cid br st h sc ssb ct sl li lo ri tm ll lol].
    split; [done |]. intros _. split; [done |]. split; [done |].
    cbn. destruct sl, ri, tm; reflexivity.
  - eexists _, _, _. split; [reflexivity |].
    rewrite poll_run.
    assert (Hs : flag_seen self
                   (with_events (events w ++ [EvRunJavascript (poll_fragment self)]) w)
                 = false) by exact Hseen.
    rewrite Hs. split; [reflexivity |]. split; [reflexivity |]. split; [done | done].
Qed.

Lemma poll_idempotent_on_state_witness :
  ∃ self1 w1 w2,
    W._check_engine_ready sample_widget world_ready = (Return self1, w1) ∧
    W._check_engine_ready self1 w1 = (Return self1, w2) ∧
    is_ready (W.state self1) = true ∧
    W._check_timer self1 = Some {| interval := 1 # 2; cancelled := true |}.
Proof.
  destruct (poll_idempotent_on_state sample_widget world_ready)
    as (self1 & w1 & w2 & H1 & H2 & _ & _ & Hseen).
  destruct Hseen as (Hready & Htimer & _); [reflexivity |].
  exists self1, w1, w2. repeat split; assumption.
Defined.

(** ** Rendering and the lifecycle flags *)

Lemma bind_return_inv {A B} (m : M A) (f : A → M B) (w w' : World) (b : B) :
  (m ≫= f) w = (Return b, w') →
  ∃ a w1, m w = (Return a, w1) ∧ f a w1 = (Return b, w').
Proof.
  unfold mbind, M_bind. destruct (m w) as [[a|e] w1]; [eauto | discriminate].
Qed.

Lemma init_state (short_id : string) (now : Q) (height : string) (sc ssb : bool)
    (config : option nat) (w w1 : World) (self : W.t) :
  W.__init__ short_id now height sc ssb config w = (Return self, w1) →
  W.state self
  = new_state now (Fin (4003784 # 100000)) (Fin (-7534238 # 100000)) ∧
  W._check_timer self = None ∧ W._status_label self = None.
Proof.
  unfold W.__init__. intros H.
  apply bind_return_inv in H as (cfg & w0 & _ & H).
  injection H as <- _. done.
Qed.

Lemma snoc3 {A} (l : list A) (x y z : A) :
  (((l ++ [x]) ++ [y]) ++ [z] = l ++ [x; y; z])%list.
Proof. by rewrite <- !app_assoc. Qed.

Lemma render_run (self self' : W.t) (w w' : World) :
  W.render self w = (Return self', w') →
  W.state self' = W.state self ∧
  W._check_timer self' = Some {| interval := 1 # 2; cancelled := false |} ∧
  ∃ pre src args,
    events w' = (pre ++ [EvAddHeadScript src; EvRunJavascript (InitCall args);
                         EvCreate CheckTimer])%list.
Proof.
  unfold W.render. intros H.
  apply bind_return_inv in H as (a & w1 & _ & H).
  apply bind_return_inv in H as ([] & w2 & _ & H).
  apply bind_return_inv in H as (s1 & w3 & H1 & H).
  apply bind_return_inv in H as ([] & w4 & _ & H).
  apply bind_return_inv in H as (s2 & w5 & H2 & H).
  assert (Hs1 : W.state s1 = W.state self).
  { destruct self as [cfg wid cid br st h sc ssb ct sl li lo ri tm ll lol].
    destruct sc; injection H1 as <- _; reflexivity. }
  assert (Hs2 : W.state s2 = W.state s1).
  { destruct s1 as [cfg wid cid br st h sc ssb ct sl li lo ri tm ll lol].
    destruct ssb; injection H2 as <- _; reflexivity. }
  unfold W._inject_init_script in H.
  apply bind_return_inv in H as (w6 & w7 & _ & H).
  destruct (configs w6 !! W._config s2) as [c|]; [| discriminate].
  apply bind_return_inv in H as ([] & w8 & H3 & H).
  apply bind_return_inv in H as ([] & w9 & H4 & H).
  apply bind_return_inv in H as ([] & w10 & H5 & H).
  injection H as <- <-.
  split; [destruct s2; simpl in *; congruence |].
  split; [by destruct s2 |].
  injection H3 as <-. injection H5 as <-.
  exists (events w7), (init_script_url c).
  eexists. unfold run_javascript in H4.
  destruct (host _); injection H4 as <-; simpl; apply snoc3.
Qed.

Example sample_widget_rendered :
  (W.render sample_new_widget world_fresh).1 = Return sample_widget.
Proof. vm_compute; reflexivity. Qed.

Example second_widget_built :
  W.__init__ "0a1b2c3d" 0 "500px" true true (Some 1%nat) world_fresh
  = (Return second_widget, world_fresh).
Proof. vm_compute; reflexivity. Qed.

Example sample_new_widget_built :
  W.__init__ "1f2e3d4c" 0 "500px" true true (Some 0%nat) world_fresh
  = (Return sample_new_widget, world_fresh).
Proof. vm_compute; reflexivity. Qed.

(** C6, as stated, fails: polling once more after the widget has become
    Ready repeats the status-label update and the timer cancellation. *)
Lemma poll_again_counterexample :
  ∃ self w,
    sample_polled = Some (self, w) ∧
    is_ready (W.state self) = true ∧
    cancelled <$> W._check_timer self = Some true ∧
    text <$> W._status_label self = Some (Literal "Stellarium ready") ∧
    events (W._check_engine_ready self w).2 =
      (events w ++
       [EvRunJavascript (ReadyTest "window.stel_1f2e3d4c_ready");
        EvStore FIsReady;
        EvSetText StatusLabel (Literal "Stellarium ready");
        EvClasses StatusLabel "text-green-400" "text-gray-400";
        EvCancel CheckTimer])%list.
Proof.
  eexists _, _. split; [vm_compute; reflexivity |].
  repeat split; vm_compute; reflexivity.
Qed.

(** C7, as stated, fails: after [render()] has returned, [is_loaded] is
    still false. *)
Lemma render_not_loaded_counterexample :
  ∃ self w,
    sample_rendered = Some (self, w) ∧
    is_loaded (W.state self) = false.
Proof. eexists _, _. split; [vm_compute; reflexivity |]. reflexivity. Qed.

(** C7, as the code has it: a widget starts at
    [(is_loaded, is_ready) = (false, false)]; [render()] injects the
    initialization script and schedules the poll (interval 0.5 s) but
    leaves both flags as they are; a poll never sets [is_loaded], and sets
    [is_ready] exactly when it sees the flag. *)
Theorem lifecycle_flags (short_id : string) (now : Q) (height : string)
    (sc ssb : bool) (config : option nat) (w0 w1 w2 w3 : World)
    (self self' : W.t) :
  W.__init__ short_id now height sc ssb config w0 = (Return self, w1) →
  W.render self w2 = (Return self', w3) →
  (is_loaded (W.state self) = false ∧ is_ready (W.state self) = false) ∧
  (is_loaded (W.state self') = false ∧ is_ready (W.state self') = false) ∧
  (∃ pre src args,
     events w3 = (pre ++ [EvAddHeadScript src; EvRunJavascript (InitCall args);
                          EvCreate CheckTimer])%list) ∧
  W._check_timer self' = Some {| interval := 1 # 2; cancelled := false |} ∧
  (∀ w, ∃ self'' w',
     W._check_engine_ready self' w = (Return self'', w') ∧
     is_loaded (W.state self'') = false ∧
     is_ready (W.state self'') = flag_seen self' w).
Proof.
  intros Hinit Hrender.
  apply init_state in Hinit as (Hst & _).
  apply render_run in Hrender as (Hst' & Htm & Hev).
  rewrite Hst in Hst'.
  split; [by rewrite Hst |]. split; [by rewrite Hst' |].
  split; [exact Hev |]. split; [exact Htm |].
  intros w. rewrite poll_run. destruct (flag_seen self' w).
  - eexists _, _. split; [reflexivity |]. destruct self'; simpl in *. by rewrite Hst'.
  - eexists _, _. split; [reflexivity |]. by rewrite Hst'.
Qed.

Lemma lifecycle_flags_witness :
  ∃ self w,
    W.render sample_new_widget world_fresh = (Return self, w) ∧
    (is_loaded (W.state self) = false ∧ is_ready (W.state self) = false).
Proof.
  eexists _, _. split; [vm_compute; reflexivity |].
  eapply (lifecycle_flags "1f2e3d4c" 0 "500px" true true (Some 0%nat)
            world_fresh world_fresh world_fresh _ sample_new_widget);
    vm_compute; reflexivity.
Defined.

(** ** The configuration singleton *)

Lemma bind_raise_inv {A B} (m : M A) (f : A → M B) (w w' : World) (e : PyExn) :
  (m ≫= f) w = (Raise e, w') →
  m w = (Raise e, w') ∨ ∃ a w1, m w = (Return a, w1) ∧ f a w1 = (Raise e, w').
Proof.
  unfold mbind, M_bind. destruct (m w) as [[a|e'] w1]; [eauto | intros [= -> ->]; auto].
Qed.

Lemma same_registry_refl (w : World) : same_registry w w.
Proof. by repeat split. Qed.

Lemma same_registry_trans (w1 w2 w3 : World) :
  same_registry w1 w2 → same_registry w2 w3 → same_registry w1 w3.
Proof. intros (? & ? & ?) (? & ? & ?). repeat split; congruence. Qed.

Lemma validate_world (c : StellariumConfig) (w w' : World) (o : Outcome ()) :
  Config.validate c w = (o, w') → w' = w.
Proof.
  unfold Config.validate. destruct (build_dir c) as [d|]; [| by intros [= _ <-]].
  unfold mbind, M_bind, get_world. destruct (fs_exists _ _); by intros [= _ <-].
Qed.

Lemma add_static_files_registry (url dir : string) (w w' : World) (o : Outcome ()) :
  Config.add_static_files url dir w = (o, w') → same_registry w w'.
Proof.
  unfold Config.add_static_files, mbind, M_bind, emit, get_world. simpl.
  destruct (static_accepts _ _); intros [= _ <-]; by repeat split.
Qed.

Lemma mount_mounted (r : nat) (w : World) (c : StellariumConfig) :
  configs w !! r = Some c → _mounted c = true →
  Config.mount r w = (Return r, w).
Proof.
  intros Hc Hm. unfold Config.mount, mbind, M_bind, get_world. by rewrite Hc, Hm.
Qed.

Lemma mount_reuses_active (r a : nat) (w : World) (c : StellariumConfig) :
  configs w !! r = Some c → _mounted c = false → _active w = Some a →
  Config.mount r w = (Return a, w).
Proof.
  intros Hc Hm Ha. unfold Config.mount, mbind, M_bind, get_world.
  by rewrite Hc, Hm, Ha.
Qed.

(** With the invariant and an active configuration, [mount] is a pure
    read: it returns the active reference and changes nothing. *)
Lemma mount_when_active (r a : nat) (w : World) :
  singleton_inv w → _active w = Some a → r < length (configs w) →
  Config.mount r w = (Return a, w).
Proof.
  intros Hinv Ha Hr.
  destruct (lookup_lt_is_Some_2 _ _ Hr) as [c Hc].
  destruct (_mounted c) eqn:Hm.
  - rewrite (mount_mounted r w c) by done.
    specialize (Hinv r c Hc Hm). congruence.
  - by apply (mount_reuses_active r a w c).
Qed.

Lemma mount_unmounted (r : nat) (w : World) (c : StellariumConfig) :
  configs w !! r = Some c → _mounted c = false → _active w = None →
  Config.mount r w = mount_fresh r c w w.
Proof.
  intros Hc Hm Ha. unfold Config.mount, mount_fresh.
  unfold mbind at 1. unfold M_bind at 1. unfold get_world at 1.
  by rewrite Hc, Hm, Ha.
Qed.

Lemma mount_fresh_raise (r : nat) (c : StellariumConfig) (w0 w w' : World) (e : PyExn) :
  mount_fresh r c w0 w = (Raise e, w') → same_registry w w'.
Proof.
  unfold mount_fresh. intros H.
  apply bind_raise_inv in H as [H | ([] & w1 & H1 & H)].
  { apply validate_world in H as ->. apply same_registry_refl. }
  apply validate_world in H1 as ->.
  apply bind_raise_inv in H as [H | ([] & w2 & H2 & H)].
  { by apply add_static_files_registry in H. }
  apply add_static_files_registry in H2.
  apply bind_raise_inv in H as [H | ([] & w3 & H3 & H)].
  { apply add_static_files_registry in H. by eapply same_registry_trans. }
  apply add_static_files_registry in H3.
  apply bind_raise_inv in H as [H | ([] & w4 & H4 & H)].
  { apply add_static_files_registry in H. eauto using same_registry_trans. }
  exfalso. revert H.
  unfold Config.update, Config.set_active, emit, mbind, M_bind, mret, M_ret.
  discriminate.
Qed.

Lemma mount_fresh_return (r a : nat) (c : StellariumConfig) (w0 w w' : World) :
  mount_fresh r c w0 w = (Return a, w') →
  a = r ∧ _active w' = Some r ∧
  configs w' = alter (Config.set_mounted true) r (alter Config._set_urls r (configs w)).
Proof.
  unfold mount_fresh. intros H.
  apply bind_return_inv in H as ([] & w1 & H1 & H).
  apply validate_world in H1 as ->.
  apply bind_return_inv in H as ([] & w2 & H2 & H).
  apply add_static_files_registry in H2.
  apply bind_return_inv in H as ([] & w3 & H3 & H).
  apply add_static_files_registry in H3.
  apply bind_return_inv in H as ([] & w4 & H4 & H).
  apply add_static_files_registry in H4.
  destruct (same_registry_trans _ _ _ (same_registry_trans _ _ _ H2 H3) H4) as (Hcs & _ & _).
  revert H.
  unfold Config.update, Config.set_active, emit, mbind, M_bind, mret, M_ret.
  intros [= <- <-]. simpl. by rewrite Hcs.
Qed.

Lemma mount_keeps_fresh (r : nat) (w w' : World) (e : PyExn) :
  fresh_process w → Config.mount r w = (Raise e, w') →
  fresh_process w' ∧ configs w' = configs w.
Proof.
  intros [Ha Hm] H.
  assert (Hreg : same_registry w w').
  { destruct (configs w !! r) as [c|] eqn:Hc.
    - assert (Hmc : _mounted c = false).
      { eapply Forall_lookup_1 in Hm; [exact Hm | exact Hc]. }
      rewrite (mount_unmounted r w c) in H by done.
      by apply mount_fresh_raise in H.
    - revert H. unfold Config.mount, mbind, M_bind, get_world. rewrite Hc.
      intros [= _ <-]. apply same_registry_refl. }
  destruct Hreg as (Hcs & Hact & _).
  split; [| exact Hcs]. split; [congruence | by rewrite Hcs].
Qed.

Lemma mount_all_keeps_fresh (rs : list nat) (w w' : World) (outs : list (Outcome nat)) :
  fresh_process w → mount_all rs w = (outs, w') →
  Forall (λ o, ∀ x, o ≠ Return x) outs →
  fresh_process w' ∧ configs w' = configs w.
Proof.
  revert w outs. induction rs as [|r rs IH]; intros w outs Hfresh Hrun Hfail.
  - injection Hrun as <- <-. done.
  - simpl in Hrun.
    destruct (Config.mount r w) as [o w1] eqn:Hm.
    destruct (mount_all rs w1) as [os w2] eqn:Hrest.
    injection Hrun as <- <-.
    apply Forall_cons in Hfail as [Ho Hos].
    destruct o as [x|e]; [by destruct (Ho x) |].
    destruct (mount_keeps_fresh r w w1 e Hfresh Hm) as [Hfresh1 Hcs1].
    destruct (IH w1 os Hfresh1 Hrest Hos) as [Hfresh2 Hcs2].
    split; [done | congruence].
Qed.

Lemma mount_first_success (r a : nat) (w w' : World) :
  fresh_process w → Config.mount r w = (Return a, w') →
  a = r ∧ _active w' = Some r ∧ singleton_inv w' ∧
  length (configs w') = length (configs w) ∧
  ∃ c, configs w !! r = Some c ∧
       configs w' !! r = Some (Config.set_mounted true (Config._set_urls c)).
Proof.
  intros [Ha Hm] H.
  destruct (configs w !! r) as [c|] eqn:Hc; cycle 1.
  { revert H. unfold Config.mount, mbind, M_bind, get_world. by rewrite Hc. }
  assert (Hmc : _mounted c = false).
  { eapply Forall_lookup_1 in Hm; [exact Hm | exact Hc]. }
  rewrite (mount_unmounted r w c) in H by done.
  apply mount_fresh_return in H as (-> & Hact & Hcs).
  split; [done |]. split; [done |]. split; [| split].
  - intros r' c' Hc' Hm'. rewrite Hact. f_equal.
    destruct (decide (r' = r)) as [-> | Hne]; [done |].
    rewrite Hcs in Hc'. rewrite !list_lookup_alter_ne in Hc' by done.
    eapply Forall_lookup_1 in Hm; [| exact Hc']. simpl in Hm. congruence.
  - by rewrite Hcs, !length_alter.
  - exists c. split; [done |].
    by rewrite Hcs, !list_lookup_alter_eq, Hc.
Qed.

Lemma mount_all_when_active (rs : list nat) (a : nat) (w : World) :
  singleton_inv w → _active w = Some a →
  Forall (λ r, r < length (configs w)) rs →
  mount_all rs w = (replicate (length rs) (Return a), w).
Proof.
  intros Hinv Ha. induction 1 as [|r rs Hr _ IH]; [reflexivity |].
  simpl. rewrite (mount_when_active r a w) by done. by rewrite IH.
Qed.

(** C8: the active configuration is written once.  From process start,
    take any sequence of [mount()] calls: once a call has succeeded (the
    calls before it, if any, having raised), it has returned its own
    instance [r], made it the active one and resolved its URLs; every
    later call, on the same or on any other instance, returns [r] and
    leaves the whole world as it is, so the active configuration and its
    URLs are not overwritten and no static files are mounted again. *)
Theorem mount_write_once (w0 w1 w2 : World) (pre post : list nat)
    (outs : list (Outcome nat)) (r a : nat) :
  fresh_process w0 →
  mount_all pre w0 = (outs, w1) →
  Forall (λ o, ∀ x, o ≠ Return x) outs →
  Config.mount r w1 = (Return a, w2) →
  Forall (λ r', r' < length (configs w0)) post →
  a = r ∧
  _active w2 = Some r ∧
  (∃ c, configs w0 !! r = Some c ∧
        configs w2 !! r = Some (Config.set_mounted true (Config._set_urls c))) ∧
  mount_all post w2 = (replicate (length post) (Return r), w2).
Proof.
  intros Hfresh Hpre Hfail Hmount Hpost.
  destruct (mount_all_keeps_fresh pre w0 w1 outs Hfresh Hpre Hfail) as [Hfresh1 Hcs1].
  destruct (mount_first_success r a w1 w2 Hfresh1 Hmount)
    as (-> & Hact & Hinv & Hlen & c & Hc & Hc').
  split; [done |]. split; [done |]. split.
  - exists c. split; [by rewrite <- Hcs1 | done].
  - apply mount_all_when_active; [done | done |].
    by rewrite Hlen, Hcs1.
Qed.

Lemma mount_write_once_witness :
  ∃ w2,
    Config.mount 0 (mount_all [1%nat] world_fresh).2 = (Return 0%nat, w2) ∧
    mount_all [1%nat; 0%nat; 1%nat] w2
    = ([Return 0%nat; Return 0%nat; Return 0%nat], w2).
Proof.
  eexists. split; [vm_compute; reflexivity |].
  eapply (mount_write_once world_fresh (mount_all [1%nat] world_fresh).2 _
            [1%nat] [1%nat; 0%nat; 1%nat] (mount_all [1%nat] world_fresh).1 0 0).
  - split; [reflexivity | repeat constructor].
  - vm_compute; reflexivity.
  - vm_compute. repeat constructor. discriminate.
  - vm_compute; reflexivity.
  - vm_compute. repeat constructor.
Defined.


(** [validate] looks at the engine script and at nothing else: two file
    systems that agree on that one path give the same verdict. *)
Remark validate_reads_script_only (self : StellariumConfig) (w1 w2 : World) :
  (∀ d, build_dir self = Some d →
        fs_exists (env w1) (d // "stellarium-web-engine.js")
        = fs_exists (env w2) (d // "stellarium-web-engine.js")) →
  (Config.validate self w1).1 = (Config.validate self w2).1.
Proof.
  intros Hsame. unfold Config.validate.
  destruct (build_dir self) as [d|]; [| reflexivity].
  unfold mbind, M_bind, get_world. rewrite (Hsame d eq_refl).
  by destruct (fs_exists _ _).
Qed.

(** [_reset] is what reopens the singleton: after it, another instance
    mounts and becomes active while the first one stays mounted. *)
Example reset_reopens_mount :
  let w1 := (Config.mount 0 world_fresh).2 in
  let w2 := (Config._reset w1).2 in
  let w3 := with_configs (configs w2 ++ [sample_config]) w2 in
  _active w1 = Some 0%nat ∧
  (Config.mount 2 w3).1 = Return 2%nat ∧
  _active (Config.mount 2 w3).2 = Some 2%nat ∧
  (Config.mount 0 (Config.mount 2 w3).2).1 = Return 0%nat.
Proof. vm_compute. by repeat split. Qed.




(** * Further properties *)

(** ** The bridge: what a command or a query changes *)

Lemma string_length_app (s t : string) :
  String.length (s +:+ t) = (String.length s + String.length t)%nat.
Proof. induction s as [|a s IH]; simpl; [done | by rewrite IH]. Qed.

Lemma string_app_inv_tail (s1 s2 t : string) : s1 +:+ t = s2 +:+ t → s1 = s2.
Proof.
  revert s2. induction s1 as [|a s1 IH]; intros [|a2 s2] H.
  - done.
  - apply (f_equal String.length) in H.
    rewrite !string_length_app in H. simpl in H. lia.
  - apply (f_equal String.length) in H.
    rewrite !string_length_app in H. simpl in H. lia.
  - simpl in H. injection H as -> H. f_equal. by apply IH.
Qed.

Lemma last_ascii_app (s t : string) :
  t ≠ EmptyString → last_ascii (s +:+ t) = last_ascii t.
Proof.
  intros Ht. induction s as [|a s IH]; [done |].
  simpl. destruct (s +:+ t) eqn:Hst; [| exact IH].
  destruct s; simpl in Hst; [done | discriminate].
Qed.

Lemma stel_ref_inj (id1 id2 : string) :
  B._stel_ref (B.__init__ id1) = B._stel_ref (B.__init__ id2) → id1 = id2.
Proof.
  simpl. intros H. apply (inj (String.app "window.")) in H.
  by apply string_app_inv_tail in H.
Qed.

Lemma last_ascii_app3 (p s t : string) :
  t ≠ EmptyString → last_ascii (p +:+ (s +:+ t)) = last_ascii t.
Proof.
  intros Ht. rewrite last_ascii_app; [by apply last_ascii_app |].
  destruct s; [done | discriminate].
Qed.

Lemma stel_ref_not_ready (id1 id2 : string) :
  B._stel_ref (B.__init__ id1) ≠ ready_ref (B.__init__ id2).
Proof.
  unfold ready_ref. cbn [B._stel_ref B.__init__ B.widget_id]. intros H.
  apply (f_equal last_ascii) in H.
  rewrite !last_ascii_app3 in H by discriminate. discriminate.
Qed.

Lemma eval_wrapper_frame (absent : JsVal) (ref key : string) (js : list JsStmt)
    (win : gmap string JsVal) :
  key ≠ ref → (eval_wrapper absent ref js win).2 !! key = win !! key.
Proof.
  intros Hne. unfold eval_wrapper.
  destruct (negb (js_truthy (window_get win ref))); [done |].
  destruct (window_get win ref) as [| | | | |e]; try (by destruct js).
  destruct (exec_body js e); simpl; by rewrite lookup_insert_ne.
Qed.

Lemma run_command_world (b : B.t) (c : Command) (w : World) :
  run_command b c w =
    (Return (),
     with_window
       (match host w with
        | Responds => (eval_wrapper JUndefined (B._stel_ref b) (command_body c) (window w)).2
        | Fails _ => window w
        end)
       (with_events
          (events w ++ [EvRunJavascript (RunWrapper (B._stel_ref b) (command_body c))]) w)).
Proof.
  rewrite run_command_run. unfold B._run, run_javascript.
  destruct (host w) eqn:Hh; [reflexivity |].
  destruct w; simpl in *. by rewrite Hh.
Qed.

Lemma run_command_engine (b : B.t) (c : Command) (w : World) (e : Engine) :
  host w = Responds → window w !! B._stel_ref b = Some (JObj e) →
  window (run_command b c w).2
  = <[B._stel_ref b := JObj (result_engine (exec_body (command_body c) e))]> (window w).
Proof.
  intros Hh Hwin. rewrite run_command_world, Hh. simpl.
  rewrite (eval_wrapper_engine _ _ _ _ e) by done.
  by destruct (exec_body _ _).
Qed.

(** X1: a command sent through the bridge of one widget changes no
    global of the page other than that widget's own handle: the handles
    of widgets with another id and every readiness flag keep their
    values. *)
Theorem command_touches_own_handle_only (id : string) (c : Command) (w : World) :
  (∀ key, key ≠ B._stel_ref (B.__init__ id) →
          window (run_command (B.__init__ id) c w).2 !! key = window w !! key) ∧
  (∀ id', id' ≠ id →
          window (run_command (B.__init__ id) c w).2 !! B._stel_ref (B.__init__ id')
          = window w !! B._stel_ref (B.__init__ id')) ∧
  (∀ id', window (run_command (B.__init__ id) c w).2 !! ready_ref (B.__init__ id')
          = window w !! ready_ref (B.__init__ id')).
Proof.
  assert (Hframe : ∀ key, key ≠ B._stel_ref (B.__init__ id) →
            window (run_command (B.__init__ id) c w).2 !! key = window w !! key).
  { intros key Hne. rewrite run_command_world. simpl.
    destruct (host w); [by apply eval_wrapper_frame | done]. }
  split; [exact Hframe |]. split.
  - intros id' Hne. apply Hframe. intros H. by apply stel_ref_inj in H.
  - intros id'. apply Hframe. intros H. symmetry in H. by apply stel_ref_not_ready in H.
Qed.

Lemma command_touches_own_handle_only_witness :
  window (run_command other_bridge (CmdSetFov (Fin 30)) world_ready).2
    !! B._stel_ref sample_bridge
  = window world_ready !! B._stel_ref sample_bridge ∧
  window (run_command other_bridge (CmdSetFov (Fin 30)) world_ready).2
    !! ready_ref sample_bridge
  = window world_ready !! ready_ref sample_bridge.
Proof.
  destruct (command_touches_own_handle_only "stel_0a1b2c3d" (CmdSetFov (Fin 30)) world_ready)
    as (_ & Hother & Hready).
  split.
  - apply (Hother "stel_1f2e3d4c"). discriminate.
  - apply (Hready "stel_1f2e3d4c").
Defined.

Lemma query_body_keeps_engine (js : list JsStmt) (e : Engine) (name : string) :
  js = [ReturnAltitude name] ∨ js = [ReturnAzimuth name] →
  result_engine (exec_body js e) = e.
Proof.
  intros [-> | ->]; simpl; destruct (getObj e name) as [o|]; try done;
    by destruct (obj_pvo o).
Qed.

Lemma eval_query_window (ref : string) (js : list JsStmt) (name : string)
    (win : gmap string JsVal) :
  js = [ReturnAltitude name] ∨ js = [ReturnAzimuth name] →
  (eval_wrapper JNull ref js win).2 = win.
Proof.
  intros Hjs. unfold eval_wrapper, window_get.
  destruct (win !! ref) as [v|] eqn:Hv; simpl; [| done].
  destruct (negb (js_truthy v)); [done |].
  destruct v as [| | | | |e]; try (by destruct js).
  pose proof (query_body_keeps_engine js e name Hjs) as He.
  destruct (exec_body js e); simpl in *; subst; by apply insert_id.
Qed.

Lemma world_eta_events (w : World) (win : gmap string JsVal) (evs : list Event) :
  win = window w → with_window win (with_events evs w) = with_events evs w.
Proof. intros ->. by destruct w. Qed.

(** X2: a query ([get_object_altitude], [get_object_azimuth], [is_ready])
    changes nothing but the event log: the page, the configuration
    objects and the active reference are as before, whatever the host
    does. *)
Theorem queries_are_read_only (b : B.t) (q : Query) (w : World) :
  (run_query b q w).2 = with_events (events (run_query b q w).2) w.
Proof.
  destruct (host w) as [|e] eqn:Hh.
  - destruct q as [name | name |]; simpl.
    + unfold B.get_object_altitude. rewrite query_host_responds by done. simpl.
      pose proof (eval_query_window (B._stel_ref b) [ReturnAltitude name] name (window w)
                    (or_introl eq_refl)) as Hwin.
      destruct (eval_wrapper _ _ _ _) as [[v|] win]; simpl in *; subst;
        by rewrite world_eta_events.
    + unfold B.get_object_azimuth. rewrite query_host_responds by done. simpl.
      pose proof (eval_query_window (B._stel_ref b) [ReturnAzimuth name] name (window w)
                    (or_intror eq_refl)) as Hwin.
      destruct (eval_wrapper _ _ _ _) as [[v|] win]; simpl in *; subst;
        by rewrite world_eta_events.
    + rewrite is_ready_host_responds by done. reflexivity.
  - destruct q as [name | name |]; simpl.
    + unfold B.get_object_altitude. by rewrite (query_host_fails _ _ _ e).
    + unfold B.get_object_azimuth. by rewrite (query_host_fails _ _ _ e).
    + by rewrite (is_ready_host_fails _ _ e).
Qed.

Lemma layer_command_body (l : Layer) (v : bool) :
  command_body (layer_command l v) = [AssignVisible l v].
Proof. by destruct l. Qed.

Lemma layer_eqb_eq (a b : Layer) : layer_eqb a b = true ↔ a = b.
Proof. destruct a, b; simpl; split; congruence. Qed.

(** X3: with the engine in place, each of the seven layer setters sets
    the visibility of its own layer to the value passed and leaves the
    other layers, the observer, the field of view and the selection as
    they were. *)
Theorem layer_setter_changes_one_layer (b : B.t) (l : Layer) (v : bool)
    (w : World) (e : Engine) :
  host w = Responds →
  window w !! B._stel_ref b = Some (JObj e) →
  ∃ e',
    engine_of b (run_command b (layer_command l v) w).2 = Some e' ∧
    layer_visible e' l = v ∧
    (∀ l', l' ≠ l → layer_visible e' l' = layer_visible e l') ∧
    observer_latitude e' = observer_latitude e ∧
    observer_longitude e' = observer_longitude e ∧
    observer_utc e' = observer_utc e ∧
    core_fov e' = core_fov e ∧
    core_selection e' = core_selection e ∧
    locked_on e' = locked_on e.
Proof.
  intros Hh Hwin. eexists. split.
  - unfold engine_of. rewrite (run_command_engine b _ w e) by done.
    rewrite lookup_insert_eq, layer_command_body. reflexivity.
  - simpl. split.
    + assert (H : layer_eqb l l = true) by by apply layer_eqb_eq. by rewrite H.
    + split; [| done]. intros l' Hne.
      destruct (layer_eqb l l') eqn:H; [| done].
      apply layer_eqb_eq in H. congruence.
Qed.

Lemma layer_setter_changes_one_layer_witness :
  ∃ e',
    engine_of sample_bridge
      (run_command sample_bridge (layer_command Atmosphere false) world_ready).2 = Some e' ∧
    layer_visible e' Atmosphere = false ∧
    layer_visible e' Landscape = true.
Proof.
  destruct (layer_setter_changes_one_layer sample_bridge Atmosphere false
              world_ready sample_engine)
    as (e' & He & Hv & Hothers & _); [reflexivity | reflexivity |].
  exists e'. split; [exact He |]. split; [exact Hv |].
  rewrite Hothers; [reflexivity | discriminate].
Defined.

(** X4: [look_at_object] with a name the engine does not know leaves the
    page unchanged (the fragment's own [if (obj)] guard); with a known name
    the object becomes both the selection and the lock target, and nothing
    else of the engine changes. *)
Theorem look_at_object_effect (b : B.t) (name : string) (w : World) (e : Engine) :
  host w = Responds →
  window w !! B._stel_ref b = Some (JObj e) →
  (getObj e name = None →
     window (B.look_at_object b name w).2 = window w) ∧
  (∀ o, getObj e name = Some o →
     ∃ e', engine_of b (B.look_at_object b name w).2 = Some e' ∧
           core_selection e' = Some o ∧ locked_on e' = Some o ∧
           observer_latitude e' = observer_latitude e ∧
           observer_longitude e' = observer_longitude e ∧
           observer_utc e' = observer_utc e ∧
           core_fov e' = core_fov e ∧
           layer_visible e' = layer_visible e).
Proof.
  intros Hh Hwin.
  pose proof (run_command_engine b (CmdLookAtObject name) w e Hh Hwin) as Hrun.
  simpl in Hrun. split.
  - intros Hnone. rewrite Hrun, Hnone. simpl. by apply insert_id.
  - intros o Hsome. eexists. split.
    + unfold engine_of. rewrite Hrun, lookup_insert_eq, Hsome. reflexivity.
    + done.
Qed.

Lemma look_at_object_effect_witness :
  window (B.look_at_object sample_bridge "NAME Vega" world_ready).2 = window world_ready ∧
  ∃ e',
    engine_of sample_bridge (B.look_at_object sample_bridge "NAME Sun" world_ready).2
      = Some e' ∧
    core_selection e' = Some sun ∧ locked_on e' = Some sun.
Proof.
  destruct (look_at_object_effect sample_bridge "NAME Vega" world_ready sample_engine)
    as [Hnone _]; [reflexivity | reflexivity |].
  destruct (look_at_object_effect sample_bridge "NAME Sun" world_ready sample_engine)
    as [_ Hsome]; [reflexivity | reflexivity |].
  split; [apply Hnone; reflexivity |].
  destruct (Hsome sun) as (e' & He & Hs & Hl & _); [reflexivity |].
  exists e'. split; [exact He |]. split; [exact Hs | exact Hl].
Defined.

(** X5: with the engine in place and the host answering, an object
    query ([get_object_altitude] or [get_object_azimuth]) returns [None]
    exactly when the name is unknown to the engine or the object has no
    position, and it logs no warning either way. *)
Theorem object_query_none_iff (b : B.t) (name : string) (q : Query)
    (w : World) (e : Engine) :
  q = QryAltitude name ∨ q = QryAzimuth name →
  host w = Responds →
  window w !! B._stel_ref b = Some (JObj e) →
  ((run_query b q w).1 = Return PyNone
     ↔ (getObj e name = None ∨ ∃ o, getObj e name = Some o ∧ obj_pvo o = None)) ∧
  warnings (events (run_query b q w).2) = warnings (events w).
Proof.
  intros Hq Hh Hwin.
  assert (Hrun : ∃ js, run_query b q = B._query b js ∧
                       (js = [ReturnAltitude name] ∨ js = [ReturnAzimuth name])).
  { destruct Hq as [-> | ->]; eexists; (split; [reflexivity |]); auto. }
  destruct Hrun as (js & -> & Hjs).
  rewrite query_host_responds by done. simpl.
  rewrite (eval_wrapper_engine _ _ _ _ e) by done.
  destruct Hjs as [-> | ->]; simpl;
    (destruct (getObj e name) as [o|] eqn:Hobj; simpl;
     [ destruct (obj_pvo o) as [p|] eqn:Hp; simpl |]);
    (split; [| rewrite warnings_app; simpl; apply app_nil_r]).
  all: split; try done; eauto.
  all: intros [? | (o' & [= <-] & ?)]; congruence.
Qed.

Lemma object_query_none_iff_witness :
  (run_query sample_bridge (QryAltitude "NAME Vega") world_ready).1 = Return PyNone ∧
  (run_query sample_bridge (QryAzimuth "NAME Sun") world_ready).1 ≠ Return PyNone.
Proof.
  destruct (object_query_none_iff sample_bridge "NAME Vega" (QryAltitude "NAME Vega")
              world_ready sample_engine)
    as [[_ Hvega] _]; [left; reflexivity | reflexivity | reflexivity |].
  destruct (object_query_none_iff sample_bridge "NAME Sun" (QryAzimuth "NAME Sun")
              world_ready sample_engine)
    as [[Hsun _] _]; [right; reflexivity | reflexivity | reflexivity |].
  split; [apply Hvega; left; reflexivity |].
  intros H. destruct (Hsun H) as [Hn | (o & Ho & Hp)].
  - vm_compute in Hn. discriminate.
  - vm_compute in Ho. injection Ho as <-. vm_compute in Hp. discriminate.
Defined.

(** X6: with the engine in place and the host answering,
    [StellariumBridge.set_location] returns whatever the numbers are.  With
    two finite numbers both coordinates of the observer are set; with a
    finite latitude and a longitude that is an infinity or NaN (whose
    Python text is no JavaScript number) the latitude is set and the script
    stops before the longitude; with such a latitude nothing is set. *)
Theorem bridge_set_location_nonfinite (b : B.t) (lat lon : PyNum)
    (w : World) (e : Engine) :
  host w = Responds →
  window w !! B._stel_ref b = Some (JObj e) →
  ∃ e',
    B.set_location b lat lon w
    = (Return (), with_window (<[B._stel_ref b := JObj e']> (window w))
                    (with_events
                       (events w ++ [EvRunJavascript
                                       (RunWrapper (B._stel_ref b)
                                          [AssignLatitude lat; AssignLongitude lon])]) w)) ∧
    (∀ x y, lat = Fin x → lon = Fin y →
            observer_latitude e' = x ∧ observer_longitude e' = y) ∧
    (∀ x, lat = Fin x → js_number lon = None →
            observer_latitude e' = x ∧ observer_longitude e' = observer_longitude e) ∧
    (js_number lat = None → e' = e).
Proof.
  intros Hh Hwin.
  exists (result_engine (exec_body [AssignLatitude lat; AssignLongitude lon] e)).
  split.
  - change (B.set_location b lat lon) with (run_command b (CmdSetLocation lat lon)).
    rewrite run_command_world, Hh. simpl command_body.
    rewrite (eval_wrapper_engine _ _ _ _ e) by done.
    by destruct (exec_body _ _).
  - split; [| split].
    + by intros x y -> ->.
    + intros x -> Hlon. simpl. by rewrite Hlon.
    + intros Hlat. simpl. by rewrite Hlat.
Qed.

Lemma bridge_set_location_nonfinite_witness :
  ∃ e',
    engine_of sample_bridge (B.set_location sample_bridge (Fin 10) NaN world_ready).2
      = Some e' ∧
    observer_latitude e' = 10%Q ∧ observer_longitude e' = 0%Q.
Proof.
  destruct (bridge_set_location_nonfinite sample_bridge (Fin 10) NaN world_ready sample_engine)
    as (e' & Hrun & _ & Hlon & _); [reflexivity | reflexivity |].
  exists e'. split.
  - rewrite Hrun. unfold engine_of. cbn [snd window with_window].
    rewrite lookup_insert_eq. reflexivity.
  - exact (Hlon 10%Q eq_refl eq_refl).
Defined.

(** ** The stored location *)

Lemma clamp_cases (lo hi : Q) (x : PyNum) :
  (lo < hi)%Q →
  (∀ q, x = Fin q → (lo < q < hi)%Q → clamp lo hi x = Fin q) ∧
  (∀ q, x = Fin q → (hi <= q)%Q → clamp lo hi x = Fin hi) ∧
  (∀ q, x = Fin q → (q <= lo)%Q → clamp lo hi x = Fin lo) ∧
  (x = PosInf → clamp lo hi x = Fin hi) ∧
  (x = NegInf → clamp lo hi x = Fin lo) ∧
  (x = NaN → clamp lo hi x = Fin hi).
Proof.
  intros Hlh.
  assert (Hlt : Qltb lo hi = true) by by apply Qltb_lt.
  unfold clamp, py_max, py_min. repeat split.
  - intros q -> [H1 H2]. simpl.
    apply Qltb_lt in H1, H2. rewrite H2. simpl. by rewrite H1.
  - intros q -> H. simpl. apply Qltb_ge in H. rewrite H. simpl. by rewrite Hlt.
  - intros q -> H. simpl.
    assert (H2 : Qltb q hi = true) by (apply Qltb_lt; lra).
    rewrite H2. simpl. apply Qltb_ge in H. by rewrite H.
  - intros ->. simpl. by rewrite Hlt.
  - by intros ->.
  - intros ->. simpl. by rewrite Hlt.
Qed.

Lemma clamp_idem (lo hi : Q) (x : PyNum) :
  (lo < hi)%Q → clamp lo hi (clamp lo hi x) = clamp lo hi x.
Proof.
  intros Hlh.
  assert (Hlo : clamp lo hi (Fin lo) = Fin lo).
  { destruct (clamp_cases lo hi (Fin lo) Hlh) as (_ & _ & H & _).
    apply (H lo); [done | lra]. }
  assert (Hhi : clamp lo hi (Fin hi) = Fin hi).
  { destruct (clamp_cases lo hi (Fin hi) Hlh) as (_ & H & _).
    apply (H hi); [done | lra]. }
  destruct (clamp_cases lo hi x Hlh) as (Hin & Habove & Hbelow & Hp & Hn & Hnan).
  destruct x as [q| | |].
  - destruct (Qlt_le_dec lo q) as [H1 | H1].
    + destruct (Qlt_le_dec q hi) as [H2 | H2].
      * by rewrite !(Hin q eq_refl (conj H1 H2)).
      * by rewrite (Habove q eq_refl H2).
    + by rewrite (Hbelow q eq_refl H1).
  - by rewrite Hp.
  - by rewrite Hn.
  - by rewrite Hnan.
Qed.


(** The world that [set_location] leaves: the log gains the stores and the
    display updates, then the bridge command runs. *)
Lemma set_location_world (lat lon alt : PyNum) (self : W.t) (w : World) :
  let clat := clamp (-90) 90 lat in
  let clon := clamp (-180) 180 lon in
  ∃ self',
    W.set_location lat lon alt self w
    = (Return self',
       (run_command (W._bridge self) (CmdSetLocation clat clon)
          (with_events
             (events w ++ [EvStore FLatitude; EvStore FLongitude; EvStore FAltitude]
                ++ display_updates self clat clon) w)).2) ∧
    W.state self' = set_altitude alt (set_longitude clon (set_latitude clat (W.state self))) ∧
    W.with_state (W.state self) self' =
      W.with_lon_label (label_set_text (LonText clon) <$> W._lon_label self)
        (W.with_lat_label (label_set_text (LatText clat) <$> W._lat_label self)
           (W.with_lon_input ((λ _, {| value := clon |}) <$> W._lon_input self)
              (W.with_lat_input ((λ _, {| value := clat |}) <$> W._lat_input self) self))).
Proof.
  intros clat clon. unfold clamp in *.
  destruct self as [cfg wid cid br st h sc ssb ct sl li lo ri tm ll lol].
  unfold display_updates.
  destruct li, lo, ll, lol; destruct (host w) eqn:Hh;
    (eexists; split; [unfold run_command; run_monad; rewrite ?Hh; simpl;
                      rewrite <- ?app_assoc; reflexivity |]).
  all: split; reflexivity.
Qed.






Lemma state_eta (s : StellariumState) :
  set_altitude (altitude s) (set_longitude (longitude s) (set_latitude (latitude s) s)) = s.
Proof. by destruct s. Qed.

(** X10: calling [set_location] again with the values it has just stored
    returns the very same widget: stored coordinates are fixed points of
    the clamping, and inputs and labels already show them. *)
Theorem set_location_again_is_stable (lat lon alt : PyNum) (self : W.t) (w : World) :
  ∃ s1 w1 w2,
    W.set_location lat lon alt self w = (Return s1, w1) ∧
    W.set_location (latitude (W.state s1)) (longitude (W.state s1))
      (altitude (W.state s1)) s1 w1 = (Return s1, w2).
Proof.
  destruct (set_location_world lat lon alt self w) as (s1 & Hrun1 & Hst1 & Hsh1).
  eexists s1, _, _. split; [exact Hrun1 |].
  destruct (set_location_world (latitude (W.state s1)) (longitude (W.state s1))
              (altitude (W.state s1)) s1
              (run_command (W._bridge self)
                 (CmdSetLocation (clamp (-90) 90 lat) (clamp (-180) 180 lon))
                 (with_events
                    (events w ++ [EvStore FLatitude; EvStore FLongitude; EvStore FAltitude]
                       ++ display_updates self (clamp (-90) 90 lat) (clamp (-180) 180 lon))
                    w)).2)
    as (s2 & Hrun2 & Hst2 & Hsh2).
  rewrite Hrun2. f_equal. f_equal.
  assert (Hlat : clamp (-90) 90 (latitude (W.state s1)) = latitude (W.state s1)).
  { rewrite Hst1. simpl. apply clamp_idem. lra. }
  assert (Hlon : clamp (-180) 180 (longitude (W.state s1)) = longitude (W.state s1)).
  { rewrite Hst1. simpl. apply clamp_idem. lra. }
  rewrite Hlat, Hlon in Hst2, Hsh2. rewrite state_eta in Hst2.
  assert (Hvlat : latitude (W.state s1) = clamp (-90) 90 lat) by by rewrite Hst1.
  assert (Hvlon : longitude (W.state s1) = clamp (-180) 180 lon) by by rewrite Hst1.
  rewrite Hvlat, Hvlon in Hsh2. clear Hrun1 Hrun2 Hlat Hlon Hvlat Hvlon Hst1.
  destruct self as [cfg wid cid br st h sc ssb ct sl li lo ri tm ll lol].
  destruct s1, s2. simpl in *.
  injection Hsh1; intros; subst. clear Hsh1.
  injection Hsh2; intros; subst. clear Hsh2.
  by destruct li, lo, ll, lol.
Qed.



(** X12: a poll that does not see the flag, because the host fails with
    whatever exception or because the flag is not the boolean [true],
    returns the widget as it was (timer still running), logs nothing and
    leaves only the evaluation in the event log. *)
Theorem poll_without_flag_is_silent (self : W.t) (w : World) :
  (∃ e, host w = Fails e) ∨
  (host w = Responds ∧ window w !! ready_ref (W._bridge self) ≠ Some (JBool true)) →
  W._check_engine_ready self w
  = (Return self, with_events (events w ++ [EvRunJavascript (poll_fragment self)]) w).
Proof.
  intros H. rewrite poll_run.
  assert (Hseen : flag_seen self w = false); [| by rewrite Hseen].
  unfold flag_seen. destruct H as [[e ->] | [-> Hflag]]; [done |].
  apply not_true_is_false. rewrite js_strict_true_spec. unfold window_get.
  destruct (window w !! ready_ref (W._bridge self)) as [v|]; simpl; congruence.
Qed.

Lemma poll_without_flag_is_silent_witness :
  W._check_engine_ready sample_widget world_timeout
    = (Return sample_widget,
       with_events [EvRunJavascript (poll_fragment sample_widget)] world_timeout) ∧
  W._check_engine_ready sample_widget world_before_init
    = (Return sample_widget,
       with_events [EvRunJavascript (poll_fragment sample_widget)] world_before_init).
Proof.
  split.
  - apply (poll_without_flag_is_silent sample_widget world_timeout).
    left. exists TimeoutError. reflexivity.
  - apply (poll_without_flag_is_silent sample_widget world_before_init).
    right. split; [reflexivity |]. intros H. vm_compute in H. discriminate.
Defined.

Lemma render_payload (self self' : W.t) (w w' : World) :
  W.render self w = (Return self', w') →
  ∃ a w1 c1 pre,
    Config.mount (W._config self) w = (Return a, w1) ∧
    configs w1 !! W._config self = Some c1 ∧
    W.state self' = W.state self ∧
    events w' =
      (pre ++ [EvAddHeadScript (init_script_url c1);
               EvRunJavascript
                 (InitCall {| arg_widgetId := W.widget_id self;
                              arg_canvasId := W.canvas_id self;
                              arg_latitude := latitude (W.state self);
                              arg_longitude := longitude (W.state self);
                              arg_jsUrl := js_url c1;
                              arg_wasmUrl := wasm_url c1;
                              arg_dataUrl := data_url c1 |});
               EvCreate CheckTimer])%list.
Proof.
  unfold W.render. intros H.
  apply bind_return_inv in H as (a & w1 & Hmount & H).
  exists a, w1.
  apply bind_return_inv in H as ([] & w2 & H0 & H).
  injection H0 as <-.
  apply bind_return_inv in H as (s1 & w3 & H1 & H).
  apply bind_return_inv in H as ([] & w4 & H0 & H).
  injection H0 as <-.
  apply bind_return_inv in H as (s2 & w5 & H2 & H).
  destruct self as [cfg wid cid br st h sc ssb ct sl li lo ri tm ll lol].
  assert (Hs1 : s1 = W.with_lon_input (W._lon_input s1) (W.with_lat_input (W._lat_input s1)
                  (W.mk cfg wid cid br st h sc ssb (Some ()) sl li lo ri tm ll lol))
                ∧ configs w3 = configs w1).
  { destruct sc; injection H1 as <- <-; done. }
  destruct Hs1 as [Hs1 Hc3].
  assert (Hs2 : W._config s2 = cfg ∧ W.widget_id s2 = wid ∧ W.canvas_id s2 = cid ∧
                W.state s2 = st ∧ configs w5 = configs w1).
  { rewrite Hs1 in H2. simpl in H2.
    destruct ssb; injection H2 as <- <-; simpl; rewrite ?Hc3; done. }
  destruct Hs2 as (Hcfg & Hwid & Hcid & Hst & Hc5).
  unfold W._inject_init_script in H.
  apply bind_return_inv in H as (w6 & w7 & H0 & H).
  injection H0 as <- <-.
  rewrite Hcfg, Hc5 in H.
  destruct (configs w1 !! cfg) as [c1|] eqn:Hc1; [| discriminate].
  exists c1.
  apply bind_return_inv in H as ([] & w8 & H3 & H).
  apply bind_return_inv in H as ([] & w9 & H4 & H).
  apply bind_return_inv in H as ([] & w10 & H5 & H).
  injection H as <- <-.
  injection H3 as <-. injection H5 as <-.
  exists (events w5). split; [done |]. split; [done |].
  split; [by destruct s2; simpl in * |].
  unfold run_javascript in H4.
  destruct (host _); injection H4 as <-; simpl; rewrite Hwid, Hcid, Hst; apply snoc3.
Qed.

(** Once [mount] has answered, the rest of [render] cannot fail. *)
Lemma render_after_mount (self : W.t) (w w1 : World) (a : nat) (c1 : StellariumConfig) :
  Config.mount (W._config self) w = (Return a, w1) →
  configs w1 !! W._config self = Some c1 →
  ∃ self' w', W.render self w = (Return self', w') ∧
              _active w' = _active w1 ∧ configs w' = configs w1.
Proof.
  intros Hmount Hc1. unfold W.render.
  unfold mbind at 1. unfold M_bind at 1. rewrite Hmount.
  destruct self as [cfg wid cid br st h sc ssb ct sl li lo ri tm ll lol].
  simpl in Hc1.
  unfold W._inject_init_script, W._render_control_bar, run_javascript, get_world,
    emit, mbind, M_bind, mret, M_ret.
  destruct sc, ssb; simpl; rewrite Hc1; simpl; destruct (host w1);
    eexists _, _; (split; [reflexivity |]); done.
Qed.

(** X13: when [render()] performs the first mount of the process, the
    widget's configuration becomes the active one and the initialization
    call carries the widget's ids, its stored coordinates and the three
    URLs resolved under the configuration's prefix. *)
Theorem render_sends_resolved_urls (self self' : W.t) (w w' : World)
    (c : StellariumConfig) :
  fresh_process w →
  configs w !! W._config self = Some c →
  W.render self w = (Return self', w') →
  _active w' = Some (W._config self) ∧
  ∃ pre,
    events w' =
      (pre ++ [EvAddHeadScript (url_prefix c +:+ "/components/stellarium_init.js");
               EvRunJavascript
                 (InitCall {| arg_widgetId := W.widget_id self;
                              arg_canvasId := W.canvas_id self;
                              arg_latitude := latitude (W.state self);
                              arg_longitude := longitude (W.state self);
                              arg_jsUrl := url_prefix c +:+ "/build/stellarium-web-engine.js";
                              arg_wasmUrl := url_prefix c +:+ "/build/stellarium-web-engine.wasm";
                              arg_dataUrl := url_prefix c +:+ "/data/" |});
               EvCreate CheckTimer])%list.
Proof.
  intros Hfresh Hc Hrender.
  destruct (render_payload _ _ _ _ Hrender) as (a & w1 & c1 & pre & Hmount & Hc1 & _ & Hev).
  destruct (mount_first_success _ _ _ _ Hfresh Hmount) as (-> & Hact & _ & _ & c0 & Hc0 & Hc0').
  assert (c0 = c) as -> by congruence.
  assert (c1 = Config.set_mounted true (Config._set_urls c)) as -> by congruence.
  destruct (render_after_mount self w w1 _ _ Hmount Hc1) as (s & w2 & Hr & Ha & _).
  rewrite Hrender in Hr. injection Hr as _ <-.
  split; [congruence |]. exists pre. exact Hev.
Qed.

Lemma render_sends_resolved_urls_witness :
  ∃ self' w' pre,
    W.render sample_new_widget world_fresh = (Return self', w') ∧
    _active w' = Some 0%nat ∧
    events w' =
      (pre ++ [EvAddHeadScript "/swe/components/stellarium_init.js";
               EvRunJavascript
                 (InitCall {| arg_widgetId := "stel_1f2e3d4c";
                              arg_canvasId := "stel_1f2e3d4c_canvas";
                              arg_latitude := Fin (4003784 # 100000);
                              arg_longitude := Fin (-7534238 # 100000);
                              arg_jsUrl := "/swe/build/stellarium-web-engine.js";
                              arg_wasmUrl := "/swe/build/stellarium-web-engine.wasm";
                              arg_dataUrl := "/swe/data/" |});
               EvCreate CheckTimer])%list.
Proof.
  destruct (W.render sample_new_widget world_fresh) as [[self'|e] w'] eqn:Hrun;
    [| vm_compute in Hrun; discriminate].
  destruct (render_sends_resolved_urls sample_new_widget self' world_fresh w' sample_config)
    as (Hact & pre & Hev);
    [split; [reflexivity | repeat constructor] | reflexivity | exact Hrun |].
  exists self', w', pre. split; [reflexivity |]. split; [exact Hact | exact Hev].
Defined.

(** X14: when another configuration is already active and the widget's
    own configuration was never mounted, [render()] succeeds and keeps the
    active configuration, but the initialization call and the script tag
    carry the URL fields of the widget's own configuration object (empty
    for a newly constructed one), not those of the active one: the
    instance returned by [mount()] is not used. *)
Theorem render_sends_own_urls_when_reusing (self : W.t) (w : World) (a : nat)
    (c : StellariumConfig) :
  _active w = Some a →
  configs w !! W._config self = Some c →
  _mounted c = false →
  ∃ self' w' pre,
    W.render self w = (Return self', w') ∧
    _active w' = Some a ∧
    configs w' = configs w ∧
    events w' =
      (pre ++ [EvAddHeadScript (init_script_url c);
               EvRunJavascript
                 (InitCall {| arg_widgetId := W.widget_id self;
                              arg_canvasId := W.canvas_id self;
                              arg_latitude := latitude (W.state self);
                              arg_longitude := longitude (W.state self);
                              arg_jsUrl := js_url c;
                              arg_wasmUrl := wasm_url c;
                              arg_dataUrl := data_url c |});
               EvCreate CheckTimer])%list.
Proof.
  intros Ha Hc Hm.
  pose proof (mount_reuses_active _ a w c Hc Hm Ha) as Hmount.
  destruct (render_after_mount self w w a c Hmount Hc) as (self' & w' & Hr & Hact & Hcs).
  destruct (render_payload _ _ _ _ Hr) as (a' & w1 & c1 & pre & Hmount' & Hc1 & _ & Hev).
  rewrite Hmount in Hmount'. injection Hmount' as <- <-.
  assert (c1 = c) as -> by congruence.
  exists self', w', pre. split; [done |]. split; [congruence |]. split; [done |].
  exact Hev.
Qed.

Lemma render_sends_own_urls_when_reusing_witness :
  ∃ self' w' pre,
    W.render second_widget world_mounted = (Return self', w') ∧
    _active w' = Some 0%nat ∧
    events w' =
      (pre ++ [EvAddHeadScript EmptyString;
               EvRunJavascript
                 (InitCall {| arg_widgetId := "stel_0a1b2c3d";
                              arg_canvasId := "stel_0a1b2c3d_canvas";
                              arg_latitude := Fin (4003784 # 100000);
                              arg_longitude := Fin (-7534238 # 100000);
                              arg_jsUrl := EmptyString;
                              arg_wasmUrl := EmptyString;
                              arg_dataUrl := EmptyString |});
               EvCreate CheckTimer])%list.
Proof.
  destruct (render_sends_own_urls_when_reusing second_widget world_mounted 0 broken_config)
    as (self' & w' & pre & Hrun & Hact & _ & Hev);
    [vm_compute; reflexivity | vm_compute; reflexivity | reflexivity |].
  exists self', w', pre. split; [exact Hrun |]. split; [exact Hact | exact Hev].
Defined.

(** X15: after [create_stellarium_view(latitude, longitude, ...)] the
    widget holds the clamped coordinates and altitude 0 (not the default
    142 of the state class), is not ready, and the initialization call
    issued by the rendering carries the clamped coordinates and the
    widget's id. *)
Theorem create_view_payload (short_id : string) (now : Q) (lat lon : PyNum)
    (height : string) (sc ssb : bool) (config : option nat)
    (w w' : World) (self' : W.t) :
  create_stellarium_view short_id now lat lon height sc ssb config w = (Return self', w') →
  latitude (W.state self') = clamp (-90) 90 lat ∧
  longitude (W.state self') = clamp (-180) 180 lon ∧
  altitude (W.state self') = Fin 0 ∧
  is_ready (W.state self') = false ∧
  ∃ pre src args,
    events w' = (pre ++ [EvAddHeadScript src; EvRunJavascript (InitCall args);
                         EvCreate CheckTimer])%list ∧
    arg_widgetId args = "stel_" +:+ short_id ∧
    arg_latitude args = clamp (-90) 90 lat ∧
    arg_longitude args = clamp (-180) 180 lon.
Proof.
  unfold create_stellarium_view. intros H.
  apply bind_return_inv in H as (wd0 & w1 & Hinit & H).
  apply bind_return_inv in H as (wd1 & w2 & Hset & Hrender).
  assert (Hwd0 : W.widget_id wd0 = "stel_" +:+ short_id ∧
                 W.state wd0 = new_state now (Fin (4003784 # 100000)) (Fin (-7534238 # 100000))).
  { unfold W.__init__ in Hinit.
    apply bind_return_inv in Hinit as (cfg & w0 & _ & Hinit).
    by injection Hinit as <- _. }
  destruct Hwd0 as [Hid Hst0].
  destruct (set_location_world lat lon (Fin 0) wd0 w1) as (wd1' & Hrun & Hst1 & Hsh).
  rewrite Hset in Hrun. injection Hrun as <- _.
  assert (Hid1 : W.widget_id wd1 = W.widget_id wd0).
  { apply (f_equal W.widget_id) in Hsh. by destruct wd0, wd1. }
  destruct (render_payload _ _ _ _ Hrender) as (a & w3 & c1 & pre & _ & _ & Hst' & Hev).
  rewrite Hst', Hst1, Hst0. simpl.
  split; [done |]. split; [done |]. split; [done |]. split; [done |].
  eexists pre, _, _. split; [exact Hev |]. simpl.
  rewrite Hid1, Hid, Hst1. done.
Qed.

Lemma create_view_payload_witness :
  ∃ self' w',
    create_stellarium_view "1f2e3d4c" 0 (Fin 120) (Fin (-75)) "500px" true true
      (Some 0%nat) world_fresh = (Return self', w') ∧
    latitude (W.state self') = Fin 90 ∧
    longitude (W.state self') = Fin (-75) ∧
    altitude (W.state self') = Fin 0.
Proof.
  destruct (create_stellarium_view "1f2e3d4c" 0 (Fin 120) (Fin (-75)) "500px" true true
              (Some 0%nat) world_fresh) as [[self'|e] w'] eqn:Hrun;
    [| vm_compute in Hrun; discriminate].
  destruct (create_view_payload "1f2e3d4c" 0 (Fin 120) (Fin (-75)) "500px" true true
              (Some 0%nat) world_fresh w' self' Hrun)
    as (Hlat & Hlon & Halt & _).
  exists self', w'. split; [reflexivity |].
  rewrite Hlat, Hlon, Halt. repeat split.
Defined.

(** ** The field of view *)

(** X16: [StellariumWidget.set_fov] stores the value it is given without
    any range check and sends one fragment after the store.  With the
    engine in place and a finite value the engine's field of view becomes
    the stored one; a value that is an infinity or NaN is stored all the
    same, and the page is left as it was. *)
Theorem set_fov_stores_unchecked (f : PyNum) (self : W.t) (w : World) :
  ∃ self' w',
    W.set_fov f self w = (Return self', w') ∧
    self' = W.with_state (set_state_fov f (W.state self)) self ∧
    fov (W.state self') = f ∧
    events w' =
      (events w ++ [EvStore FFov;
                    EvRunJavascript (RunWrapper (B._stel_ref (W._bridge self)) [AssignFov f])])%list ∧
    (∀ e q, host w = Responds →
            window w !! B._stel_ref (W._bridge self) = Some (JObj e) →
            f = Fin q →
            ∃ e', engine_of (W._bridge self) w' = Some e' ∧ core_fov e' = q) ∧
    (js_number f = None → window w' = window w).
Proof.
  eexists _, _. split.
  - unfold W.set_fov, W.assign. run_monad.
    change (B.set_fov ?b ?x) with (run_command b (CmdSetFov x)).
    rewrite run_command_world. reflexivity.
  - split; [reflexivity |]. split.
    { by destruct self. }
    split.
    { simpl. rewrite <- app_assoc. by destruct self. }
    split.
    + intros e q Hh Hwin ->. simpl. rewrite Hh. simpl.
      assert (Hb : W._bridge (W.with_state (set_state_fov (Fin q) (W.state self)) self)
                   = W._bridge self) by by destruct self.
      rewrite Hb. unfold engine_of. simpl.
      rewrite (eval_wrapper_engine _ _ _ _ e) by done. simpl.
      rewrite lookup_insert_eq. eauto.
    + intros Hf. simpl.
      assert (Hb : W._bridge (W.with_state (set_state_fov f (W.state self)) self)
                   = W._bridge self) by by destruct self.
      rewrite Hb.
      destruct (host w); [| done]. simpl.
      unfold eval_wrapper, window_get.
      destruct (window w !! B._stel_ref (W._bridge self)) as [v|] eqn:Hv; simpl; [| done].
      destruct (negb (js_truthy v)); [done |].
      destruct v as [| | | | |e]; try done.
      simpl. rewrite Hf. simpl. by apply insert_id.
Qed.

Lemma set_fov_stores_unchecked_witness :
  ∃ self' w' e',
    W.set_fov (Fin 30) sample_widget world_ready = (Return self', w') ∧
    fov (W.state self') = Fin 30 ∧
    engine_of sample_bridge w' = Some e' ∧
    core_fov e' = 30%Q.
Proof.
  destruct (set_fov_stores_unchecked (Fin 30) sample_widget world_ready)
    as (self' & w' & Hrun & _ & Hfov & _ & Heng & _).
  destruct (Heng sample_engine 30%Q) as (e' & He & Hq);
    [reflexivity | reflexivity | reflexivity |].
  exists self', w', e'. split; [exact Hrun |]. split; [exact Hfov |].
  split; [exact He | exact Hq].
Defined.

(** ** The configuration singleton, continued *)

Lemma fresh_singleton_inv (w : World) : fresh_process w → singleton_inv w.
Proof.
  intros [_ Hm] r c Hc Hmc.
  eapply Forall_lookup_1 in Hm; [| exact Hc]. simpl in Hm. congruence.
Qed.

Lemma singleton_inv_no_active (w : World) :
  singleton_inv w → _active w = None → fresh_process w.
Proof.
  intros Hinv Ha. split; [done |].
  apply Forall_lookup_2. intros r c Hc.
  destruct (_mounted c) eqn:Hm; [| done].
  specialize (Hinv r c Hc Hm). congruence.
Qed.

(** The four ways through [mount]. *)
Lemma mount_cases (r : nat) (w : World) (o : Outcome nat) (w' : World) :
  singleton_inv w →
  Config.mount r w = (o, w') →
  (w' = w ∧ configs w !! r = None ∧ ∃ e, o = Raise e) ∨
  (w' = w ∧ ∃ a, _active w = Some a ∧ o = Return a) ∨
  (fresh_process w ∧ ∃ e, o = Raise e ∧ fresh_process w' ∧ configs w' = configs w) ∨
  (fresh_process w ∧ o = Return r ∧ _active w' = Some r ∧ singleton_inv w').
Proof.
  intros Hinv H.
  destruct (configs w !! r) as [c|] eqn:Hc.
  - destruct (_mounted c) eqn:Hm.
    + rewrite (mount_mounted r w c Hc Hm) in H. injection H as <- <-.
      right; left. split; [done |]. exists r. split; [by apply (Hinv r c) | done].
    + destruct (_active w) as [a|] eqn:Ha.
      * rewrite (mount_reuses_active r a w c Hc Hm Ha) in H. injection H as <- <-.
        right; left. eauto.
      * pose proof (singleton_inv_no_active w Hinv Ha) as Hfresh.
        destruct o as [a|e].
        -- destruct (mount_first_success r a w w' Hfresh H) as (-> & Hact & Hinv' & _).
           right; right; right. done.
        -- destruct (mount_keeps_fresh r w w' e Hfresh H) as [Hf Hcs].
           right; right; left. split; [done |]. exists e. done.
  - revert H. unfold Config.mount, mbind, M_bind, get_world. rewrite Hc.
    intros [= <- <-]. left. eauto.
Qed.

(** X17: a [mount()] that raises changes no configuration object and
    not the active reference, also when directories had been registered
    with the app before the failure: the next call starts from the same
    configuration state. *)
Theorem mount_failure_changes_no_configuration (r : nat) (w w' : World) (e : PyExn) :
  Config.mount r w = (Raise e, w') →
  configs w' = configs w ∧ _active w' = _active w.
Proof.
  intros H.
  destruct (configs w !! r) as [c|] eqn:Hc.
  - destruct (_mounted c) eqn:Hm.
    + by rewrite (mount_mounted r w c Hc Hm) in H.
    + destruct (_active w) as [a|] eqn:Ha.
      * by rewrite (mount_reuses_active r a w c Hc Hm Ha) in H.
      * rewrite (mount_unmounted r w c Hc Hm Ha) in H.
        apply mount_fresh_raise in H as (? & ? & _). split; congruence.
  - revert H. unfold Config.mount, mbind, M_bind, get_world. rewrite Hc.
    by intros [= _ <-].
Qed.

Lemma mount_failure_changes_no_configuration_witness :
  ∃ e w',
    Config.mount 0 world_half = (Raise e, w') ∧
    length (events w') = 2%nat ∧
    configs w' = [half_config] ∧ _active w' = None.
Proof.
  destruct (Config.mount 0 world_half) as [[a|e] w'] eqn:Hrun;
    [vm_compute in Hrun; discriminate |].
  destruct (mount_failure_changes_no_configuration 0 world_half w' e Hrun) as [Hc Ha].
  exists e, w'. split; [reflexivity |]. split; [| split; [exact Hc | exact Ha]].
  vm_compute in Hrun. injection Hrun as _ <-. reflexivity.
Defined.

Lemma find_some_split {A} (f : A → bool) (l : list A) (x : A) :
  List.find f l = Some x →
  ∃ l1 l2, l = (l1 ++ x :: l2)%list ∧ f x = true ∧ Forall (λ y, f y = false) l1.
Proof.
  induction l as [|y l IH]; [discriminate |]. simpl.
  destruct (f y) eqn:Hy.
  - intros [= ->]. exists [], l. done.
  - intros H. destruct (IH H) as (l1 & l2 & -> & Hx & Hl1).
    exists (y :: l1), l2. split; [done |]. split; [done |]. by constructor.
Qed.

(** X18: "every mounted configuration is the active one" is an
    invariant of [mount], [auto_discover] and [get_active], whatever they
    return. *)
Theorem singleton_invariant_kept (w : World) :
  singleton_inv w →
  (∀ r o w', Config.mount r w = (o, w') → singleton_inv w') ∧
  (∀ o w', Config.auto_discover w = (o, w') → singleton_inv w') ∧
  (∀ o w', Config.get_active w = (o, w') → singleton_inv w').
Proof.
  intros Hinv. split; [| split].
  - intros r o w' H.
    destruct (mount_cases r w o w' Hinv H)
      as [(-> & _) | [(-> & _) | [(_ & e & _ & Hf & _) | (_ & _ & _ & Hinv')]]];
      try done. by apply fresh_singleton_inv.
  - intros o w'. unfold Config.auto_discover, mbind, M_bind, get_world.
    destruct (List.find _ _) as [parent|]; [| by intros [= _ <-]].
    intros [= _ <-]. intros r c Hc Hm. simpl in *.
    apply lookup_app_Some in Hc as [Hc | [_ Hc]]; [by apply (Hinv r c) |].
    destruct (r - length (configs w))%nat; simpl in Hc; [| done].
    injection Hc as <-. done.
  - intros o w'. unfold Config.get_active, mbind, M_bind, get_world.
    destruct (_active w); by intros [= _ <-].
Qed.

Lemma singleton_invariant_kept_witness :
  singleton_inv (Config.mount 1 (Config.mount 0 world_fresh).2).2 ∧
  singleton_inv (Config.auto_discover world_fresh).2.
Proof.
  assert (Hinv : singleton_inv world_fresh).
  { intros r c Hc Hm. destruct r as [|[|r]]; simpl in Hc; [| | discriminate];
      injection Hc as <-; discriminate. }
  destruct (singleton_invariant_kept world_fresh Hinv) as (Hmount & Hdisc & _).
  split.
  - assert (Hinv1 : singleton_inv (Config.mount 0 world_fresh).2).
    { apply (Hmount 0%nat (Config.mount 0 world_fresh).1).
      destruct (Config.mount 0 world_fresh); reflexivity. }
    destruct (singleton_invariant_kept _ Hinv1) as (Hmount1 & _).
    apply (Hmount1 1%nat (Config.mount 1 (Config.mount 0 world_fresh).2).1).
    destruct (Config.mount 1 (Config.mount 0 world_fresh).2); reflexivity.
  - apply (Hdisc (Config.auto_discover world_fresh).1).
    destruct (Config.auto_discover world_fresh); reflexivity.
Defined.

(** X19: under that invariant, [get_active()] right after a successful
    [mount()] returns the instance that [mount()] returned. *)
Theorem get_active_after_mount (r a : nat) (w w' : World) :
  singleton_inv w →
  Config.mount r w = (Return a, w') →
  Config.get_active w' = (Return a, w').
Proof.
  intros Hinv H.
  assert (Hact : _active w' = Some a).
  { destruct (mount_cases r w _ w' Hinv H)
      as [(_ & _ & e & He) | [(-> & a' & Ha & Ho) | [(_ & e & He & _) | (_ & Ho & Ha & _)]]];
      try done; congruence. }
  unfold Config.get_active, mbind, M_bind, get_world. by rewrite Hact.
Qed.

Lemma get_active_after_mount_witness :
  Config.mount 1 world_mounted = (Return 0%nat, world_mounted) ∧
  Config.get_active world_mounted = (Return 0%nat, world_mounted).
Proof.
  assert (Hrun : Config.mount 1 world_mounted = (Return 0%nat, world_mounted))
    by (vm_compute; reflexivity).
  split; [exact Hrun |].
  apply (get_active_after_mount 1 0 world_mounted world_mounted); [| exact Hrun].
  intros r c Hc Hm. destruct r as [|[|r]]; vm_compute in Hc; [| | discriminate];
    injection Hc as <-; [reflexivity | discriminate].
Defined.

(** X20: [auto_discover] succeeds exactly when some ancestor directory
    of the module file contains [extern/stellarium]; it then takes the
    nearest such ancestor and allocates a new, unmounted configuration with
    [build] and [apps/test-skydata] below it and the prefix [/swe],
    leaving all existing configurations and the active reference alone. *)
Theorem auto_discover_takes_nearest (w : World) :
  ((∃ r w', Config.auto_discover w = (Return r, w'))
     ↔ Exists (λ p, fs_exists (env w) (p // "extern" // "stellarium") = true)
              (parents (module_file (env w)))) ∧
  (∀ r w', Config.auto_discover w = (Return r, w') →
     ∃ parent nearer farther,
       parents (module_file (env w)) = (nearer ++ parent :: farther)%list ∧
       fs_exists (env w) (parent // "extern" // "stellarium") = true ∧
       Forall (λ p, fs_exists (env w) (p // "extern" // "stellarium") = false) nearer ∧
       r = length (configs w) ∧
       w' = with_configs
              (configs w ++
               [new_config (Some (parent // "extern" // "stellarium" // "build"))
                  (Some (parent // "extern" // "stellarium" // "apps" // "test-skydata"))
                  "/swe"]) w).
Proof.
  split.
  - unfold Config.auto_discover, mbind, M_bind, get_world. split.
    + intros (r & w' & H).
      destruct (List.find _ _) as [parent|] eqn:Hfind; [| discriminate].
      apply find_some_split in Hfind as (l1 & l2 & -> & Hx & _).
      apply Exists_app. right. by constructor.
    + intros Hex.
      destruct (List.find _ _) as [parent|] eqn:Hfind; [by eexists _, _ |].
      exfalso. apply Exists_exists in Hex as (p & Hin & Hp).
      apply list_elem_of_In in Hin.
      pose proof (List.find_none _ _ Hfind p Hin) as Hnone. simpl in Hnone. congruence.
  - intros r w'. unfold Config.auto_discover, mbind, M_bind, get_world.
    destruct (List.find _ _) as [parent|] eqn:Hfind; [| discriminate].
    intros [= <- <-].
    apply find_some_split in Hfind as (l1 & l2 & Hl & Hx & Hl1).
    exists parent, l1, l2. done.
Qed.

Lemma auto_discover_takes_nearest_witness :
  ∃ r w',
    Config.auto_discover world_fresh = (Return r, w') ∧
    r = 2%nat ∧
    configs w' !! r =
      Some (new_config
              (Some ["opt"; "app"; "stellarium_widget"; "extern"; "stellarium"; "build"])
              (Some ["opt"; "app"; "stellarium_widget"; "extern"; "stellarium";
                     "apps"; "test-skydata"])
              "/swe").
Proof.
  destruct (auto_discover_takes_nearest world_fresh) as [[_ Hex] Hnear].
  destruct Hex as (r & w' & Hrun); [apply Exists_cons_hd; reflexivity |].
  destruct (Hnear r w' Hrun) as (parent & nearer & farther & _ & _ & _ & Hr & _).
  exists r, w'. split; [exact Hrun |]. split; [exact Hr |].
  rewrite Hr. vm_compute in Hrun. injection Hrun as _ <-. reflexivity.
Defined.

(** ** [fetch_engine] *)

Import Scripts.

Lemma prefix_fs_ancestors (root : Path) :
  ancestors_exist (λ p, bool_decide (p `prefix_of` root)).
Proof.
  intros p name. rewrite !bool_decide_eq_true.
  intros [k Hk]. exists ([name] ++ k)%list. by rewrite Hk, app_assoc.
Qed.

Lemma bind_ok {A B} (m : Script A) (f : A → Script B) (s s' : Sys) (a : A) :
  m s = (Ok a, s') → (m ≫= f) s = f a s'.
Proof. intros H. unfold mbind, Script_bind. by rewrite H. Qed.

Lemma bind_exit {A B} (m : Script A) (f : A → Script B) (s s' : Sys) (code : nat) :
  m s = (SystemExit code, s') → (m ≫= f) s = (SystemExit code, s').
Proof. intros H. unfold mbind, Script_bind. by rewrite H. Qed.

Lemma bind_oserror {A B} (m : Script A) (f : A → Script B) (s s' : Sys) :
  m s = (OSError, s') → (m ≫= f) s = (OSError, s').
Proof. intros H. unfold mbind, Script_bind. by rewrite H. Qed.

Ltac script_norm :=
  cbv beta zeta;
  cbn [with_stdout with_fs with_spawned stdout fs script_file cwd git
       mkdir_allowed spawned].

Ltac script_step := erewrite bind_ok by reflexivity; script_norm.

Lemma fetch_engine_existing (s : Sys) :
  fs s (chosen_extern s) = true →
  fs s (chosen_extern s // "stellarium") = true →
  fetch_engine s
  = (SystemExit 1,
     with_stdout (stdout s ++ refusal_lines (chosen_extern s // "stellarium"))%list s).
Proof.
  unfold chosen_extern. destruct s as [f file here g ma out sp]. script_norm.
  intros HE HT. unfold fetch_engine. script_step. script_step.
  destruct (f (path_parent (path_parent file) // "extern")) eqn:Hpe.
  - script_step. script_step. rewrite Hpe. script_step. script_step. rewrite HT.
    erewrite bind_exit; [reflexivity |].
    unfold print, sys_exit, mbind, Script_bind, refusal_lines. script_norm.
    by rewrite <- !app_assoc.
  - script_step. script_step. rewrite HE. script_step. script_step. rewrite HT.
    erewrite bind_exit; [reflexivity |].
    unfold print, sys_exit, mbind, Script_bind, refusal_lines. script_norm.
    by rewrite <- !app_assoc.
Qed.

Lemma ancestors_exist_prefix (f : Path → bool) (p q : Path) :
  ancestors_exist f → f p = true → q `prefix_of` p → f q = true.
Proof.
  intros Hanc Hp [k ->]. revert Hp.
  induction k as [|x k IH] using rev_ind; [by rewrite app_nil_r |].
  rewrite app_assoc. intros H. apply IH. by apply (Hanc _ x).
Qed.

(** X21: [fetch_engine] never clones over an existing checkout: if
    [extern/stellarium] exists it prints the three lines of advice and
    exits with status 1, having spawned no command and changed no file. *)
Theorem fetch_engine_refuses_existing_target (s : Sys) :
  ancestors_exist (fs s) →
  fs s (chosen_extern s // "stellarium") = true →
  ∃ s',
    fetch_engine s = (SystemExit 1, s') ∧
    spawned s' = spawned s ∧
    fs s' = fs s ∧
    stdout s' = (stdout s ++ refusal_lines (chosen_extern s // "stellarium"))%list.
Proof.
  intros Hanc HT. eexists. split.
  - apply fetch_engine_existing; [| done]. by apply (Hanc _ "stellarium").
  - done.
Qed.

Lemma fetch_engine_refuses_existing_target_witness :
  ∃ s',
    fetch_engine sample_sys_fetched = (SystemExit 1, s') ∧
    spawned s' = [] ∧
    stdout s' =
      ["stellarium-web-engine already exists at: /home/ana/sky/extern/stellarium";
       "To re-fetch, remove the directory first:";
       "  rm -rf /home/ana/sky/extern/stellarium"].
Proof.
  destruct (fetch_engine_refuses_existing_target sample_sys_fetched)
    as (s' & Hrun & Hsp & _ & Hout).
  - apply prefix_fs_ancestors.
  - vm_compute. reflexivity.
  - exists s'. split; [exact Hrun |]. split; [exact Hsp |].
    rewrite Hout. vm_compute. reflexivity.
Defined.

Lemma target_not_prefix (E : Path) :
  bool_decide ((E // "stellarium") `prefix_of` E) = false.
Proof. apply bool_decide_eq_false. unfold path_join. apply prefix_snoc_not. Qed.

Ltac clone_step :=
  erewrite bind_ok by (unfold subprocess_run_git_clone; script_norm; reflexivity);
  script_norm.

Ltac finish_clone :=
  eexists; split;
  [ clone_step; first [ erewrite bind_exit; reflexivity | repeat script_step; reflexivity ]
  | repeat split; try reflexivity; intros q; script_norm; by rewrite ?orb_false_r ].

(** The run that reaches [git clone]. *)
Lemma fetch_engine_clone (s : Sys) :
  fs s (chosen_extern s // "stellarium") = false →
  fs s (chosen_extern s) = true ∨ mkdir_allowed s (chosen_extern s) = true →
  ∃ s',
    fetch_engine s
    = (match git s with GitOk => Ok () | _ => SystemExit 1 end, s') ∧
    spawned s' = (spawned s ++ [clone_command (chosen_extern s // "stellarium")])%list ∧
    script_file s' = script_file s ∧ cwd s' = cwd s ∧
    (∀ q, fs s' q =
          (fs s q || (negb (fs s (chosen_extern s))
                      && bool_decide (q `prefix_of` chosen_extern s)))
          || match git s with
             | GitOk => bool_decide (q = chosen_extern s // "stellarium")
             | _ => false
             end).
Proof.
  unfold chosen_extern. destruct s as [f file here g ma out sp]. script_norm.
  intros HT HE. unfold fetch_engine. script_step. script_step.
  destruct (f (path_parent (path_parent file) // "extern")) eqn:Hpe.
  - script_step. script_step. rewrite Hpe. script_step. script_step. rewrite HT. script_step. script_step. script_step. script_step.
    destruct g; finish_clone.
  - script_step. script_step.
    destruct (f (here // "extern")) eqn:Hce.
    + script_step. script_step. rewrite HT. script_step. script_step. script_step. script_step.
      destruct g; finish_clone.
    + destruct HE as [HE | HE]; [discriminate |].
      erewrite bind_ok;
        [| unfold mbind, Script_bind, print, mkdir_parents; script_norm; rewrite HE; reflexivity].
      script_norm.
      erewrite bind_ok;
        [| unfold path_exists; script_norm; rewrite HT, target_not_prefix; reflexivity].
      script_norm. script_step. script_step. script_step. script_step.
      destruct g; finish_clone.
Qed.

Lemma fetch_engine_mkdir_refused (s : Sys) :
  fs s (chosen_extern s) = false →
  mkdir_allowed s (chosen_extern s) = false →
  fetch_engine s
  = (OSError,
     with_stdout
       (stdout s ++ ["Creating extern directory at: " +:+ path_str (chosen_extern s)])%list s).
Proof.
  unfold chosen_extern. destruct s as [f file here g ma out sp]. script_norm.
  intros HE Hma. unfold fetch_engine. script_step. script_step.
  destruct (f (path_parent (path_parent file) // "extern")) eqn:Hpe; [congruence |].
  script_step. script_step. rewrite HE.
  erewrite bind_oserror; [reflexivity |].
  unfold mbind, Script_bind, print, mkdir_parents. script_norm. by rewrite Hma.
Qed.

Lemma prefix_snoc_inv {A} (l1 l2 : list A) (x : A) :
  l1 `prefix_of` (l2 ++ [x])%list → l1 = (l2 ++ [x])%list ∨ l1 `prefix_of` l2.
Proof.
  intros [k Hk]. revert Hk. induction k as [|y k _] using rev_ind; intros Hk.
  - left. by rewrite app_nil_r in Hk.
  - right. rewrite app_assoc in Hk. apply app_inj_tail in Hk as [Hk _].
    by exists k.
Qed.

(** X22: when the target is absent and the [extern] directory exists or
    can be made, [fetch_engine] spawns exactly one command, the
    [git clone] of the repository into [extern/stellarium]; it finishes
    normally exactly when the clone succeeds (which leaves the target
    behind) and exits with status 1 exactly when git fails or is not
    installed. *)
Theorem fetch_engine_exit_status (s : Sys) :
  fs s (chosen_extern s // "stellarium") = false →
  fs s (chosen_extern s) = true ∨ mkdir_allowed s (chosen_extern s) = true →
  ∃ r s',
    fetch_engine s = (r, s') ∧
    (r = Ok () ↔ git s = GitOk) ∧
    (r = SystemExit 1 ↔ git s ≠ GitOk) ∧
    spawned s' = (spawned s ++ [clone_command (chosen_extern s // "stellarium")])%list ∧
    (git s = GitOk → fs s' (chosen_extern s // "stellarium") = true).
Proof.
  intros HT HE.
  destruct (fetch_engine_clone s HT HE) as (s' & Hrun & Hsp & _ & _ & Hfs).
  eexists _, s'. split; [exact Hrun |].
  split; [| split; [| split; [exact Hsp |]]].
  - destruct (git s); split; congruence.
  - destruct (git s); split; congruence.
  - intros Hg. rewrite Hfs, Hg. rewrite (bool_decide_eq_true_2 (_ = _)) by done.
    apply orb_true_r.
Qed.

Lemma fetch_engine_exit_status_witness :
  (fetch_engine sample_sys).1 = Ok () ∧
  spawned (fetch_engine sample_sys).2
    = [["git"; "clone"; "https://github.com/Stellarium/stellarium-web-engine.git";
        "/home/ana/sky/extern/stellarium"]] ∧
  (fetch_engine sample_sys_no_git).1 = SystemExit 1.
Proof.
  destruct (fetch_engine_exit_status sample_sys)
    as (r & s' & Hrun & [_ Hok] & _ & Hsp & _);
    [vm_compute; reflexivity | right; reflexivity |].
  destruct (fetch_engine_exit_status sample_sys_no_git)
    as (r2 & s2 & Hrun2 & _ & [_ Hexit] & _);
    [vm_compute; reflexivity | right; reflexivity |].
  rewrite Hrun, Hrun2. cbn [fst snd]. split; [apply Hok; reflexivity |].
  split; [rewrite Hsp; vm_compute; reflexivity | apply Hexit; discriminate].
Defined.

(** X23: when no [extern] directory exists and [mkdir] is refused, the
    error of the operating system is not caught: it ends the run right
    after the line that announces the directory, and nothing is cloned. *)
Theorem fetch_engine_stops_when_extern_cannot_be_made (s : Sys) :
  fs s (chosen_extern s) = false →
  mkdir_allowed s (chosen_extern s) = false →
  ∃ s',
    fetch_engine s = (OSError, s') ∧
    spawned s' = spawned s ∧
    stdout s' =
      (stdout s ++ ["Creating extern directory at: " +:+ path_str (chosen_extern s)])%list.
Proof.
  intros HE Hma. rewrite (fetch_engine_mkdir_refused s HE Hma). by eexists.
Qed.

Lemma fetch_engine_stops_when_extern_cannot_be_made_witness :
  ∃ s',
    fetch_engine sample_sys_locked = (OSError, s') ∧
    spawned s' = [] ∧
    stdout s' = ["Creating extern directory at: /home/ana/sky/extern"].
Proof.
  destruct (fetch_engine_stops_when_extern_cannot_be_made sample_sys_locked)
    as (s' & Hrun & Hsp & Hout); [vm_compute; reflexivity | reflexivity |].
  exists s'. split; [exact Hrun |]. split; [exact Hsp |].
  rewrite Hout. vm_compute. reflexivity.
Defined.

Lemma chosen_extern_kept (s s' : Sys) :
  ancestors_exist (fs s) → fs s (cwd s) = true →
  script_file s' = script_file s → cwd s' = cwd s →
  (∀ q, fs s' q =
        (fs s q || (negb (fs s (chosen_extern s))
                    && bool_decide (q `prefix_of` chosen_extern s)))
        || bool_decide (q = chosen_extern s // "stellarium")) →
  chosen_extern s' = chosen_extern s.
Proof.
  intros Hanc Hcwd Hfile Hhere Hfs. unfold chosen_extern in *. cbv zeta in *.
  rewrite Hfile, Hhere. rewrite (Hfs (path_parent (path_parent (script_file s)) // "extern")).
  set (PE := path_parent (path_parent (script_file s)) // "extern") in *.
  destruct (fs s PE) eqn:Hpe; [done |]. simpl.
  destruct (negb (fs s (cwd s // "extern"))
            && bool_decide (PE `prefix_of` cwd s // "extern")) eqn:Hmk; simpl.
  - apply andb_prop in Hmk as [_ Hpre]. apply bool_decide_eq_true in Hpre.
    change (cwd s // "extern") with (cwd s ++ ["extern"])%list in Hpre.
    apply prefix_snoc_inv in Hpre as [H | H]; [done |].
    rewrite (ancestors_exist_prefix _ _ _ Hanc Hcwd H) in Hpe. discriminate.
  - rewrite bool_decide_eq_false_2; [done |].
    unfold PE, path_join. intros H. apply app_inj_tail in H as [_ H]. discriminate.
Qed.

(** X24: on a file system whose existing paths have existing ancestors
    and whose working directory exists, a run of [fetch_engine] that has
    finished normally makes the next run exit with status 1 without
    spawning a command or changing a file. *)
Theorem fetch_engine_second_run_refuses (s s' : Sys) :
  ancestors_exist (fs s) →
  fs s (cwd s) = true →
  fetch_engine s = (Ok (), s') →
  ∃ s'',
    fetch_engine s' = (SystemExit 1, s'') ∧
    spawned s'' = spawned s' ∧
    fs s'' = fs s'.
Proof.
  intros Hanc Hcwd Hrun.
  destruct (fs s (chosen_extern s // "stellarium")) eqn:HT.
  { rewrite fetch_engine_existing in Hrun; [discriminate | | done].
    by apply (Hanc _ "stellarium"). }
  assert (HE : fs s (chosen_extern s) = true ∨ mkdir_allowed s (chosen_extern s) = true).
  { destruct (fs s (chosen_extern s)) eqn:HE; [by left |].
    destruct (mkdir_allowed s (chosen_extern s)) eqn:Hma; [by right |].
    by rewrite (fetch_engine_mkdir_refused s HE Hma) in Hrun. }
  destruct (fetch_engine_clone s HT HE) as (s1 & Hrun1 & _ & Hfile & Hhere & Hfs).
  rewrite Hrun in Hrun1.
  destruct (git s) eqn:Hgit; try discriminate.
  injection Hrun1 as <-.
  assert (Hsame : chosen_extern s' = chosen_extern s)
    by by apply chosen_extern_kept.
  eexists. split.
  - apply fetch_engine_existing; rewrite Hsame, Hfs.
    + rewrite bool_decide_eq_true_2 by done.
      by destruct (fs s (chosen_extern s)).
    + rewrite (bool_decide_eq_true_2 (_ = _)) by done. apply orb_true_r.
  - done.
Qed.

Lemma fetch_engine_second_run_refuses_witness :
  ∃ s' s'',
    fetch_engine sample_sys = (Ok (), s') ∧
    fetch_engine s' = (SystemExit 1, s'') ∧
    spawned s'' = spawned s'.
Proof.
  destruct (fetch_engine_clone sample_sys) as (s' & Hrun & _);
    [vm_compute; reflexivity | right; reflexivity |].
  destruct (fetch_engine_second_run_refuses sample_sys s') as (s'' & Hagain & Hsp & _);
    [apply prefix_fs_ancestors | vm_compute; reflexivity | exact Hrun |].
  exists s', s''. split; [exact Hrun |]. split; [exact Hagain | exact Hsp].
Defined.
